(** * Shared HTTP utilities for internal microservices: a shallow embedding

    This development embeds [utility.py] (the transport wrapper
    [ServiceClient], the helper [_normalise_token_payload] and the nine
    service facades) and proves the properties stated about them.

    Modelling conventions.
    - Python values are the inductive type [pyval]; a [dict] with string
      keys is a [gmap string pyval], so equality of dictionaries is
      equality by value.
    - A coroutine is a computation in the monad [M]: it reads the behaviour
      of the [httpx] transport, threads the state of the objects it touches
      (the [ServiceClient] it owns, the requests handed to the transport and
      the log lines) and either returns a value or raises an exception.
    - [httpx] is not part of the repository. The request methods of
      [httpx.AsyncClient] are an arbitrary function [Transport]. Its
      constructor either raises or builds a record of what it was given;
      which URLs it turns down is a parameter of [ServiceClient.__init__]
      and of the facades' [__init__] ([init] is the constructor under an
      httpx that accepts the URL). [httpx.BasicAuth] builds the pair it is
      given when both components are strings and raises [TypeError]
      otherwise. *)

From Stdlib Require Import QArith.
From stdpp Require Import gmap strings pretty.

Set Warnings "-register-all".
Local Open Scope string_scope.

(** ** Python values *)

Inductive pyval : Type :=
| PyNone
| PyBool (b : bool)
| PyInt (n : Z)
| PyStr (s : string)
| PyList (l : list pyval)
| PyDict (d : gmap string pyval)
| PyBasicAuth (username password : pyval)   (* httpx.BasicAuth(u, p) *)
| PyAuth (name : string)                    (* any other httpx.Auth instance *)
| PyObject (attrs : gmap string pyval).     (* instance of a user class *)

(** [isinstance(v, str)], [isinstance(v, dict)], [isinstance(v, httpx.Auth)]. *)
Definition is_str (v : pyval) : bool :=
  match v with PyStr _ => true | _ => false end.

Definition is_dict (v : pyval) : bool :=
  match v with PyDict _ => true | _ => false end.

Definition is_auth (v : pyval) : bool :=
  match v with PyBasicAuth _ _ | PyAuth _ => true | _ => false end.

(** [hasattr(v, name)]: only instances of user classes carry the attributes
    the code asks for ([username], [password]). *)
Definition hasattr (v : pyval) (name : string) : bool :=
  match v with
  | PyObject attrs => bool_decide (is_Some (attrs !! name))
  | _ => false
  end.

Definition getattr (v : pyval) (name : string) : pyval :=
  match v with
  | PyObject attrs => default PyNone (attrs !! name)
  | _ => PyNone
  end.

(** Truth value of a Python object, as tested by [if], [not] and [or]. *)
Definition truthy (v : pyval) : bool :=
  match v with
  | PyNone => false
  | PyBool b => b
  | PyInt n => negb (n =? 0)%Z
  | PyStr s => negb (String.eqb s "")
  | PyList l => negb (Nat.eqb (length l) 0)
  | PyDict d => negb (Nat.eqb (size d) 0)
  | PyBasicAuth _ _ | PyAuth _ | PyObject _ => true
  end.

(** [a or b] returns [a] when it is truthy and [b] otherwise. *)
Definition py_or (a b : pyval) : pyval := if truthy a then a else b.

(** [d.get(k)] of a dictionary: [None] when the key is absent. *)
Definition dict_get (d : gmap string pyval) (k : string) : pyval :=
  default PyNone (d !! k).

(** [str(v)] for the values interpolated into paths by f-strings. *)
Definition py_str (v : Z + string) : string :=
  match v with inl n => pretty n | inr s => s end.

(** ** Strings *)

(** [s.startswith(p)]. *)
Definition startswith (s p : string) : bool := String.prefix p s.

Fixpoint char_in (c : Ascii.ascii) (chars : string) : bool :=
  match chars with
  | EmptyString => false
  | String c' chars' => Ascii.eqb c c' || char_in c chars'
  end.

(** [s.rstrip(chars)]: drop the longest suffix made of characters of
    [chars]. *)
Fixpoint rstrip (s chars : string) : string :=
  match s with
  | EmptyString => EmptyString
  | String c s' =>
      match rstrip s' chars with
      | EmptyString => if char_in c chars then EmptyString else String c EmptyString
      | r => String c r
      end
  end.

(** Every character of [s] is one of [chars]. *)
Fixpoint all_chars_in (s chars : string) : bool :=
  match s with
  | EmptyString => true
  | String c s' => char_in c chars && all_chars_in s' chars
  end.

(** ** Exceptions, results and the coroutine monad *)

Inductive exn : Type :=
| ValueError (msg : string)
| TypeError (msg : string)
| InvalidURL (msg : string)        (* httpx.InvalidURL *)
| TransportError (msg : string).   (* whatever httpx raises on a request *)

Inductive Result (A : Type) : Type :=
| Raise (e : exn)
| Return (a : A).
Arguments Raise {A} e.
Arguments Return {A} a.

Inductive Method := GET | POST | PUT | DELETE.

Definition verb (m : Method) : string :=
  match m with GET => "GET" | POST => "POST" | PUT => "PUT" | DELETE => "DELETE" end.

(** [httpx.AsyncClient(base_url=..., timeout=...)]. *)
Record AsyncClient := {
  ac_base_url : string;
  ac_timeout : Q;
  is_closed : bool
}.

(** One call [self._client.<verb>(path, **kwargs)]. *)
Record Request := {
  req_method : Method;
  req_path : string;
  req_kwargs : gmap string pyval
}.

(** [httpx.Response]; the wrapper never looks inside. *)
Record Response := {
  status_code : Z;
  content : string
}.

(** What the transport answers when a request is handed to a client. *)
Definition Transport : Type := AsyncClient -> Request -> Result Response.

(** [httpx.AsyncClient(base_url=..., timeout=...)]. The constructor parses
    the base URL and raises on one it does not accept (for instance
    [httpx.InvalidURL] for a port that is not a number). Which arguments
    are turned down, and with what exception, is httpx's business:
    [reject] gives its verdict. *)
Definition Verdict : Type := string -> Q -> option exn.

Definition httpx_AsyncClient (reject : Verdict) (base_url : string)
    (timeout : Q) : Result AsyncClient :=
  match reject base_url timeout with
  | Some e => Raise e
  | None => Return {| ac_base_url := base_url;
                      ac_timeout := timeout;
                      is_closed := false |}
  end.

(** An httpx that accepts whatever it is given. *)
Definition accepting : Verdict := fun _ _ => None.

(** An httpx that turns down the base URL [http://x:abc], whose port is
    not a number, with [httpx.InvalidURL], and accepts the others (the
    text of the message plays no role below). *)
Definition rejects_port_abc : Verdict :=
  fun base_url _ =>
    if String.eqb base_url "http://x:abc" then
      Some (InvalidURL "Invalid port: 'abc'")
    else None.

(** The [TypeError] of [httpx.BasicAuth]. Its message is the interpreter's
    and names the offending value; only the class is modelled. *)
Definition BasicAuth_TypeError : exn :=
  TypeError "expected a bytes-like object".

(** [httpx.BasicAuth(username, password)]: the header is built at once
    from the two components, which must be strings (or bytes, which
    [pyval] does not have); anything else raises [TypeError]. *)
Definition httpx_BasicAuth (username password : pyval) : Result pyval :=
  if is_str username && is_str password then
    Return (PyBasicAuth username password)
  else
    Raise BasicAuth_TypeError.

(** A request as it reached the transport. *)
Record Sent := {
  via : AsyncClient;
  request : Request
}.

(** The address a request is issued against, base URL and path, as the
    wrapper logs it. *)
Definition sent_url (s : Sent) : string :=
  ac_base_url (via s) +:+ req_path (request s).

(** A coroutine over a state [St]: given the transport's behaviour and the
    current state it raises or returns, and leaves a new state. *)
Definition M (St A : Type) : Type := Transport -> St -> Result A * St.

Definition ret {St A} (a : A) : M St A := fun _ st => (Return a, st).

Definition raise {St A} (e : exn) : M St A := fun _ st => (Raise e, st).

Definition bind {St A B} (c : M St A) (k : A -> M St B) : M St B :=
  fun tr st =>
    match c tr st with
    | (Return a, st') => k a tr st'
    | (Raise e, st') => (Raise e, st')
    end.

(** A pure helper that may raise, called from a coroutine. *)
Definition lift {St A} (r : Result A) : M St A := fun _ st => (r, st).

Notation "x <- c ;; k" := (bind c (fun x => k))
  (at level 100, c at next level, right associativity).
Notation "c ;; k" := (bind c (fun _ => k))
  (at level 100, right associativity).

(** ** class ServiceClient *)

Module ServiceClient.

Record t := {
  base_url : string;
  timeout : Q;
  _client : AsyncClient
}.

(** The state a method runs in: the object itself, the requests handed
    to the transport so far (oldest first) and the lines logged. *)
Record world := {
  self : t;
  wire : list Sent;
  log : list string
}.

Definition default_timeout : Q := 30.

(** [__init__(self, base_url, timeout)], with httpx's verdict on the
    arguments of [httpx.AsyncClient]. *)
Definition __init__ (reject : Verdict) (base_url : string) (timeout : Q)
    : Result t :=
  if negb (truthy (PyStr base_url)) then
    Raise (ValueError "base_url is required")
  else
    let base_url' := rstrip base_url "/" in
    match httpx_AsyncClient reject base_url' timeout with
    | Raise e => Raise e
    | Return _client => Return {| base_url := base_url';
                                  timeout := timeout;
                                  _client := _client |}
    end.

(** [__init__] under an httpx that accepts the base URL. *)
Definition init (base_url : string) (timeout : Q) : Result t :=
  if negb (truthy (PyStr base_url)) then
    Raise (ValueError "base_url is required")
  else
    let base_url' := rstrip base_url "/" in
    Return {| base_url := base_url';
              timeout := timeout;
              _client := {| ac_base_url := base_url';
                            ac_timeout := timeout;
                            is_closed := false |} |}.

(** A fresh state around a newly built client. *)
Definition fresh (c : t) : world := {| self := c; wire := []; log := [] |}.

Definition _normalise (endpoint : string) : string :=
  if startswith endpoint "/" then endpoint else "/" +:+ endpoint.

(** [logger.info("<VERB> %s%s", self.base_url, path)]. *)
Definition logger_info (v : string) (path : string) : M world unit :=
  fun _ w =>
    (Return tt,
     {| self := self w;
        wire := wire w;
        log := log w ++ [v +:+ " " +:+ base_url (self w) +:+ path] |}).

(** [await self._client.<verb>(path, **kwargs)]: the request reaches the
    transport, whose answer (a response or an exception) is the
    coroutine's. *)
Definition client_request (m : Method) (path : string)
    (kwargs : gmap string pyval) : M world Response :=
  fun tr w =>
    let r := {| req_method := m; req_path := path; req_kwargs := kwargs |} in
    (tr (_client (self w)) r,
     {| self := self w;
        wire := wire w ++ [{| via := _client (self w); request := r |}];
        log := log w |}).

Definition get (endpoint : string) (kwargs : gmap string pyval) : M world Response :=
  let path := _normalise endpoint in
  logger_info "GET" path ;;
  client_request GET path kwargs.

Definition post (endpoint : string) (kwargs : gmap string pyval) : M world Response :=
  let path := _normalise endpoint in
  logger_info "POST" path ;;
  client_request POST path kwargs.

Definition put (endpoint : string) (kwargs : gmap string pyval) : M world Response :=
  let path := _normalise endpoint in
  logger_info "PUT" path ;;
  client_request PUT path kwargs.

Definition delete (endpoint : string) (kwargs : gmap string pyval) : M world Response :=
  let path := _normalise endpoint in
  logger_info "DELETE" path ;;
  client_request DELETE path kwargs.

(** [await self._client.aclose()]. *)
Definition close : M world unit :=
  fun _ w =>
    (Return tt,
     {| self := {| base_url := base_url (self w);
                   timeout := timeout (self w);
                   _client := {| ac_base_url := ac_base_url (_client (self w));
                                 ac_timeout := ac_timeout (_client (self w));
                                 is_closed := true |} |};
        wire := wire w;
        log := log w |}).

End ServiceClient.

(** ** _normalise_token_payload *)

Definition _normalise_token_payload (token : pyval) : Result pyval :=
  match token with
  | PyStr _ => Return (PyDict {[ "token" := token ]})
  | PyDict d =>
      match d !! "token" with
      | Some v => Return (PyDict {[ "token" := v ]})
      | None => Return token
      end
  | _ => Raise (TypeError "token must be a str or dict with token information")
  end.

(** ** Facade construction helpers *)

(** [os.getenv(key, default)]. *)
Definition getenv (environ : gmap string string) (key dflt : string) : string :=
  default dflt (environ !! key).

(** [base_url or fallback] for [base_url : Optional[str]]: [None] and the
    empty string are falsy. *)
Definition str_or (base_url : option string) (fallback : string) : string :=
  match base_url with
  | Some s => if truthy (PyStr s) then s else fallback
  | None => fallback
  end.

(** A value computed from the result of a constructor that may raise: the
    exception, if any, propagates. [self.client = ServiceClient(...)] builds
    the facade object once the client is built, and an exception raised by
    the client's constructor is the facade constructor's. *)
Definition result_map {A B : Type} (f : A -> B) (r : Result A) : Result B :=
  match r with
  | Return a => Return (f a)
  | Raise e => Raise e
  end.

(** [{"status": status} if status else None]. *)
Definition status_params (status : option string) : pyval :=
  match status with
  | Some s => if truthy (PyStr s) then PyDict {[ "status" := PyStr s ]} else PyNone
  | None => PyNone
  end.

(** Every facade method runs in the state of the one client the facade
    owns: [self.client] is [ServiceClient.self] of that state. *)
Abbreviation Coroutine := (M ServiceClient.world Response).

(** ** class AdminManagementService *)

Module AdminManagementService.

Record t := { client : ServiceClient.t }.

(** [__init__(self, base_url, timeout)], with httpx's verdict. *)
Definition __init__ (reject : Verdict) (base_url : option string)
    (timeout : Q) (environ : gmap string string) : Result t :=
  let service_url :=
    str_or base_url
      (getenv environ "ADMIN_MANAGEMENT_SERVICE_URL"
         "http://admin-management-service:8000") in
  result_map Build_t (ServiceClient.__init__ reject service_url timeout).

(** [__init__] under an httpx that accepts the base URL. *)
Definition init (base_url : option string) (timeout : Q)
    (environ : gmap string string) : Result t :=
  let service_url :=
    str_or base_url
      (getenv environ "ADMIN_MANAGEMENT_SERVICE_URL"
         "http://admin-management-service:8000") in
  result_map Build_t (ServiceClient.init service_url timeout).

Definition register_admin (admin_data : pyval) : Coroutine :=
  ServiceClient.post "/register_admin" {[ "json" := admin_data ]}.

Definition get_all_non_staff (token : pyval) : Coroutine :=
  payload <- lift (_normalise_token_payload token) ;;
  ServiceClient.post "/get_all_non_staff" {[ "json" := payload ]}.

Definition change_account_status (token : pyval)
    (user_email new_status : string) : Coroutine :=
  payload <- lift (_normalise_token_payload token) ;;
  ServiceClient.post "/change_account_status"
    (<[ "params" := PyDict (<[ "user_email" := PyStr user_email ]>
                             {[ "new_status" := PyStr new_status ]}) ]>
     {[ "json" := payload ]}).

Definition health_check : Coroutine :=
  ServiceClient.get "/health" ∅.

Definition close : M ServiceClient.world unit := ServiceClient.close.

End AdminManagementService.

(** ** class AlertAndEventProcessingService *)

Module AlertAndEventProcessingService.

Record t := { client : ServiceClient.t }.

(** [__init__(self, base_url, timeout)], with httpx's verdict. *)
Definition __init__ (reject : Verdict) (base_url : option string)
    (timeout : Q) (environ : gmap string string) : Result t :=
  let service_url :=
    str_or base_url
      (getenv environ "ALERT_EVENT_PROCESSING_SERVICE_URL"
         "http://alert-event-processing-service:8000") in
  result_map Build_t (ServiceClient.__init__ reject service_url timeout).

(** [__init__] under an httpx that accepts the base URL. *)
Definition init (base_url : option string) (timeout : Q)
    (environ : gmap string string) : Result t :=
  let service_url :=
    str_or base_url
      (getenv environ "ALERT_EVENT_PROCESSING_SERVICE_URL"
         "http://alert-event-processing-service:8000") in
  result_map Build_t (ServiceClient.init service_url timeout).

Definition root : Coroutine := ServiceClient.get "/" ∅.

Definition health_check : Coroutine := ServiceClient.get "/health" ∅.

Definition close : M ServiceClient.world unit := ServiceClient.close.

End AlertAndEventProcessingService.

(** ** class DeviceCommandService *)

Module DeviceCommandService.

Record t := { client : ServiceClient.t }.

(** [__init__(self, base_url, timeout)], with httpx's verdict. *)
Definition __init__ (reject : Verdict) (base_url : option string)
    (timeout : Q) (environ : gmap string string) : Result t :=
  let service_url :=
    str_or base_url
      (getenv environ "DEVICE_COMMAND_SERVICE_URL"
         "http://device-command-service:8000") in
  result_map Build_t (ServiceClient.__init__ reject service_url timeout).

(** [__init__] under an httpx that accepts the base URL. *)
Definition init (base_url : option string) (timeout : Q)
    (environ : gmap string string) : Result t :=
  let service_url :=
    str_or base_url
      (getenv environ "DEVICE_COMMAND_SERVICE_URL"
         "http://device-command-service:8000") in
  result_map Build_t (ServiceClient.init service_url timeout).

Definition health_check : Coroutine := ServiceClient.get "/health" ∅.

Definition add_command (command_data : pyval) : Coroutine :=
  ServiceClient.post "/add_command" {[ "json" := command_data ]}.

Definition get_commands (device_id : string) : Coroutine :=
  ServiceClient.get ("/commands/" +:+ device_id) ∅.

Definition delete_commands (device_id : string) : Coroutine :=
  ServiceClient.delete ("/commands/delete/" +:+ device_id) ∅.

Definition close : M ServiceClient.world unit := ServiceClient.close.

End DeviceCommandService.

(** ** class DeviceOnboardingService *)

Module DeviceOnboardingService.

Record t := { client : ServiceClient.t }.

(** [__init__(self, base_url, timeout)], with httpx's verdict. *)
Definition __init__ (reject : Verdict) (base_url : option string)
    (timeout : Q) (environ : gmap string string) : Result t :=
  let service_url :=
    str_or base_url
      (getenv environ "DEVICE_ONBOARDING_SERVICE_URL"
         "http://device-onboarding-service:8000") in
  result_map Build_t (ServiceClient.__init__ reject service_url timeout).

(** [__init__] under an httpx that accepts the base URL. *)
Definition init (base_url : option string) (timeout : Q)
    (environ : gmap string string) : Result t :=
  let service_url :=
    str_or base_url
      (getenv environ "DEVICE_ONBOARDING_SERVICE_URL"
         "http://device-onboarding-service:8000") in
  result_map Build_t (ServiceClient.init service_url timeout).

Definition health_check : Coroutine := ServiceClient.get "/health" ∅.

Definition add_new_device (device_data : pyval) : Coroutine :=
  ServiceClient.post "/add_new_device" {[ "json" := device_data ]}.

Definition get_my_devices (user_id : Z + string) : Coroutine :=
  ServiceClient.get ("/get_my_devices/" +:+ py_str user_id) ∅.

Definition get_user_id_by_device_id (device_id : string) : Coroutine :=
  ServiceClient.get ("/get_user_id_by_device_id/" +:+ device_id) ∅.

Definition close : M ServiceClient.world unit := ServiceClient.close.

End DeviceOnboardingService.

(** ** class DeviceTelemetryService *)

Module DeviceTelemetryService.

Record t := { client : ServiceClient.t }.

(** [__init__(self, base_url, timeout)], with httpx's verdict. *)
Definition __init__ (reject : Verdict) (base_url : option string)
    (timeout : Q) (environ : gmap string string) : Result t :=
  let service_url :=
    str_or base_url
      (getenv environ "DEVICE_TELEMETRY_SERVICE_URL"
         "http://device-telemetry-service:8000") in
  result_map Build_t (ServiceClient.__init__ reject service_url timeout).

(** [__init__] under an httpx that accepts the base URL. *)
Definition init (base_url : option string) (timeout : Q)
    (environ : gmap string string) : Result t :=
  let service_url :=
    str_or base_url
      (getenv environ "DEVICE_TELEMETRY_SERVICE_URL"
         "http://device-telemetry-service:8000") in
  result_map Build_t (ServiceClient.init service_url timeout).

Definition health_check : Coroutine := ServiceClient.get "/health" ∅.

Definition get_latest (device_id : string) : Coroutine :=
  ServiceClient.get ("/latest/" +:+ device_id) ∅.

Definition get_device_status (device_id : string) : Coroutine :=
  ServiceClient.get ("/device/status/" +:+ device_id) ∅.

Definition close : M ServiceClient.world unit := ServiceClient.close.

End DeviceTelemetryService.

(** ** class HealthMonitoringService *)

Module HealthMonitoringService.

Record t := { client : ServiceClient.t }.

(** [__init__(self, base_url, timeout)], with httpx's verdict. *)
Definition __init__ (reject : Verdict) (base_url : option string)
    (timeout : Q) (environ : gmap string string) : Result t :=
  let service_url :=
    str_or base_url
      (getenv environ "HEALTH_MONITORING_SERVICE_URL"
         "http://health-monitoring-service:8000") in
  result_map Build_t (ServiceClient.__init__ reject service_url timeout).

(** [__init__] under an httpx that accepts the base URL. *)
Definition init (base_url : option string) (timeout : Q)
    (environ : gmap string string) : Result t :=
  let service_url :=
    str_or base_url
      (getenv environ "HEALTH_MONITORING_SERVICE_URL"
         "http://health-monitoring-service:8000") in
  result_map Build_t (ServiceClient.init service_url timeout).

Definition health_check : Coroutine := ServiceClient.get "/health" ∅.

Definition get_latest_health (device_id : string) : Coroutine :=
  ServiceClient.get ("/" +:+ device_id +:+ "/latest") ∅.

Definition close : M ServiceClient.world unit := ServiceClient.close.

End HealthMonitoringService.

(** ** class NotificationMicroserviceService *)

Module NotificationMicroserviceService.

Record t := { client : ServiceClient.t }.

(** [__init__(self, base_url, timeout)], with httpx's verdict. *)
Definition __init__ (reject : Verdict) (base_url : option string)
    (timeout : Q) (environ : gmap string string) : Result t :=
  let service_url :=
    str_or base_url
      (getenv environ "NOTIFICATION_SERVICE_URL"
         "http://notification-service:8000") in
  result_map Build_t (ServiceClient.__init__ reject service_url timeout).

(** [__init__] under an httpx that accepts the base URL. *)
Definition init (base_url : option string) (timeout : Q)
    (environ : gmap string string) : Result t :=
  let service_url :=
    str_or base_url
      (getenv environ "NOTIFICATION_SERVICE_URL"
         "http://notification-service:8000") in
  result_map Build_t (ServiceClient.init service_url timeout).

Definition root : Coroutine := ServiceClient.get "/" ∅.

Definition health_check : Coroutine := ServiceClient.get "/health" ∅.

Definition close : M ServiceClient.world unit := ServiceClient.close.

End NotificationMicroserviceService.

(** ** class ParkingSlotService *)

Module ParkingSlotService.

Record t := { client : ServiceClient.t }.

(** [__init__(self, base_url, timeout)], with httpx's verdict. *)
Definition __init__ (reject : Verdict) (base_url : option string)
    (timeout : Q) (environ : gmap string string) : Result t :=
  let service_url :=
    str_or base_url
      (getenv environ "PARKING_SLOT_SERVICE_URL"
         "http://parking-slot-service:8000") in
  result_map Build_t (ServiceClient.__init__ reject service_url timeout).

(** [__init__] under an httpx that accepts the base URL. *)
Definition init (base_url : option string) (timeout : Q)
    (environ : gmap string string) : Result t :=
  let service_url :=
    str_or base_url
      (getenv environ "PARKING_SLOT_SERVICE_URL"
         "http://parking-slot-service:8000") in
  result_map Build_t (ServiceClient.init service_url timeout).

Definition create_parking_slot (slot_data token : pyval) : Coroutine :=
  payload <- lift (_normalise_token_payload token) ;;
  let body := PyDict (<[ "payload" := slot_data ]>
                      {[ "authorization" := payload ]}) in
  ServiceClient.post "/parking_slots" {[ "json" := body ]}.

Definition list_parking_slots (status : option string) : Coroutine :=
  let params := status_params status in
  ServiceClient.get "/parking_slots" {[ "params" := params ]}.

Definition get_parking_slot (slot_id : string) : Coroutine :=
  ServiceClient.get ("/parking_slots/" +:+ slot_id) ∅.

Definition update_parking_slot (slot_id : string)
    (updates token : pyval) : Coroutine :=
  payload <- lift (_normalise_token_payload token) ;;
  let body := PyDict (<[ "payload" := updates ]>
                      {[ "authorization" := payload ]}) in
  ServiceClient.put ("/parking_slots/" +:+ slot_id) {[ "json" := body ]}.

Definition delete_parking_slot (slot_id : string) (token : pyval) : Coroutine :=
  payload <- lift (_normalise_token_payload token) ;;
  let body := PyDict {[ "authorization" := payload ]} in
  ServiceClient.delete ("/parking_slots/" +:+ slot_id) {[ "json" := body ]}.

Definition assign_parking_slot (slot_id : string)
    (assignment token : pyval) : Coroutine :=
  payload <- lift (_normalise_token_payload token) ;;
  let body := PyDict (<[ "body" := assignment ]>
                      {[ "authorization" := payload ]}) in
  ServiceClient.post ("/parking_slots/" +:+ slot_id +:+ "/assign")
    {[ "json" := body ]}.

Definition release_parking_slot (slot_id : string) (token : pyval) : Coroutine :=
  payload <- lift (_normalise_token_payload token) ;;
  let body := PyDict {[ "authorization" := payload ]} in
  ServiceClient.post ("/parking_slots/" +:+ slot_id +:+ "/release")
    {[ "json" := body ]}.

Definition close : M ServiceClient.world unit := ServiceClient.close.

End ParkingSlotService.

(** ** class UserAuthenticationService *)

Module UserAuthenticationService.

Record t := { client : ServiceClient.t }.

(** [__init__(self, base_url, timeout)], with httpx's verdict. *)
Definition __init__ (reject : Verdict) (base_url : option string)
    (timeout : Q) (environ : gmap string string) : Result t :=
  let service_url :=
    str_or base_url
      (getenv environ "USER_AUTH_SERVICE_URL"
         "http://user-auth-service:8000") in
  result_map Build_t (ServiceClient.__init__ reject service_url timeout).

(** [__init__] under an httpx that accepts the base URL. *)
Definition init (base_url : option string) (timeout : Q)
    (environ : gmap string string) : Result t :=
  let service_url :=
    str_or base_url
      (getenv environ "USER_AUTH_SERVICE_URL"
         "http://user-auth-service:8000") in
  result_map Build_t (ServiceClient.init service_url timeout).

Definition health_check : Coroutine := ServiceClient.get "/health" ∅.

Definition register_user (user_data : pyval) : Coroutine :=
  ServiceClient.post "/register" {[ "json" := user_data ]}.

Definition login_user (credentials : pyval) : Coroutine :=
  auth_obj <- lift
    (if is_auth credentials then
       Return credentials
     else if hasattr credentials "username" && hasattr credentials "password" then
       httpx_BasicAuth (getattr credentials "username")
                       (getattr credentials "password")
     else
       match credentials with
       | PyDict d =>
           let email := py_or (dict_get d "email") (dict_get d "username") in
           let password := dict_get d "password" in
           if negb (truthy email) || negb (truthy password) then
             Raise (ValueError "Credentials must include email/username and password")
           else
             httpx_BasicAuth email password
       | _ => Raise (TypeError "Unsupported credentials type for login_user")
       end) ;;
  ServiceClient.post "/login" {[ "auth" := auth_obj ]}.

Definition validate_token (token : pyval) : Coroutine :=
  payload <- lift (_normalise_token_payload token) ;;
  ServiceClient.post "/validate" {[ "json" := payload ]}.

Definition get_user (user_id : Z + string) : Coroutine :=
  ServiceClient.get ("/user/" +:+ py_str user_id) ∅.

Definition make_admin (user_id : Z + string) : Coroutine :=
  ServiceClient.post ("/user/" +:+ py_str user_id +:+ "/make_admin") ∅.

Definition get_all_non_staff (token : pyval) : Coroutine :=
  payload <- lift (_normalise_token_payload token) ;;
  ServiceClient.post "/users/non_staff" {[ "json" := payload ]}.

Definition change_account_status (token : pyval)
    (target_user_email new_status : string) : Coroutine :=
  payload <- lift (_normalise_token_payload token) ;;
  ServiceClient.post "/change_account_status"
    (<[ "params" := PyDict (<[ "target_user_email" := PyStr target_user_email ]>
                             {[ "new_status" := PyStr new_status ]}) ]>
     {[ "json" := payload ]}).

Definition close : M ServiceClient.world unit := ServiceClient.close.

End UserAuthenticationService.

(** ** The nine facades and their request methods, taken together *)

Inductive Service :=
| AdminManagement
| AlertAndEventProcessing
| DeviceCommand
| DeviceOnboarding
| DeviceTelemetry
| HealthMonitoring
| NotificationMicroservice
| ParkingSlot
| UserAuthentication.

(** The environment variable a facade's constructor reads and the URL it
    falls back to, as written in each [__init__]. *)
Definition env_var (s : Service) : string :=
  match s with
  | AdminManagement => "ADMIN_MANAGEMENT_SERVICE_URL"
  | AlertAndEventProcessing => "ALERT_EVENT_PROCESSING_SERVICE_URL"
  | DeviceCommand => "DEVICE_COMMAND_SERVICE_URL"
  | DeviceOnboarding => "DEVICE_ONBOARDING_SERVICE_URL"
  | DeviceTelemetry => "DEVICE_TELEMETRY_SERVICE_URL"
  | HealthMonitoring => "HEALTH_MONITORING_SERVICE_URL"
  | NotificationMicroservice => "NOTIFICATION_SERVICE_URL"
  | ParkingSlot => "PARKING_SLOT_SERVICE_URL"
  | UserAuthentication => "USER_AUTH_SERVICE_URL"
  end.

Definition default_url (s : Service) : string :=
  match s with
  | AdminManagement => "http://admin-management-service:8000"
  | AlertAndEventProcessing => "http://alert-event-processing-service:8000"
  | DeviceCommand => "http://device-command-service:8000"
  | DeviceOnboarding => "http://device-onboarding-service:8000"
  | DeviceTelemetry => "http://device-telemetry-service:8000"
  | HealthMonitoring => "http://health-monitoring-service:8000"
  | NotificationMicroservice => "http://notification-service:8000"
  | ParkingSlot => "http://parking-slot-service:8000"
  | UserAuthentication => "http://user-auth-service:8000"
  end.

(** Constructing the facade of a service; the result is the client the new
    facade owns, or the exception the constructor raised. *)
Definition construct (s : Service) (base_url : option string) (timeout : Q)
    (environ : gmap string string) : Result ServiceClient.t :=
  match s with
  | AdminManagement =>
      result_map AdminManagementService.client
        (AdminManagementService.init base_url timeout environ)
  | AlertAndEventProcessing =>
      result_map AlertAndEventProcessingService.client
        (AlertAndEventProcessingService.init base_url timeout environ)
  | DeviceCommand =>
      result_map DeviceCommandService.client
        (DeviceCommandService.init base_url timeout environ)
  | DeviceOnboarding =>
      result_map DeviceOnboardingService.client
        (DeviceOnboardingService.init base_url timeout environ)
  | DeviceTelemetry =>
      result_map DeviceTelemetryService.client
        (DeviceTelemetryService.init base_url timeout environ)
  | HealthMonitoring =>
      result_map HealthMonitoringService.client
        (HealthMonitoringService.init base_url timeout environ)
  | NotificationMicroservice =>
      result_map NotificationMicroserviceService.client
        (NotificationMicroserviceService.init base_url timeout environ)
  | ParkingSlot =>
      result_map ParkingSlotService.client
        (ParkingSlotService.init base_url timeout environ)
  | UserAuthentication =>
      result_map UserAuthenticationService.client
        (UserAuthenticationService.init base_url timeout environ)
  end.

(** The same with httpx's verdict on the base URL. *)
Definition construct_with (reject : Verdict) (s : Service)
    (base_url : option string) (timeout : Q)
    (environ : gmap string string) : Result ServiceClient.t :=
  match s with
  | AdminManagement =>
      result_map AdminManagementService.client
        (AdminManagementService.__init__ reject base_url timeout environ)
  | AlertAndEventProcessing =>
      result_map AlertAndEventProcessingService.client
        (AlertAndEventProcessingService.__init__ reject base_url timeout environ)
  | DeviceCommand =>
      result_map DeviceCommandService.client
        (DeviceCommandService.__init__ reject base_url timeout environ)
  | DeviceOnboarding =>
      result_map DeviceOnboardingService.client
        (DeviceOnboardingService.__init__ reject base_url timeout environ)
  | DeviceTelemetry =>
      result_map DeviceTelemetryService.client
        (DeviceTelemetryService.__init__ reject base_url timeout environ)
  | HealthMonitoring =>
      result_map HealthMonitoringService.client
        (HealthMonitoringService.__init__ reject base_url timeout environ)
  | NotificationMicroservice =>
      result_map NotificationMicroserviceService.client
        (NotificationMicroserviceService.__init__ reject base_url timeout environ)
  | ParkingSlot =>
      result_map ParkingSlotService.client
        (ParkingSlotService.__init__ reject base_url timeout environ)
  | UserAuthentication =>
      result_map UserAuthenticationService.client
        (UserAuthenticationService.__init__ reject base_url timeout environ)
  end.

(** A call of a request method of a facade, with its arguments ([close]
    issues no request and returns nothing; it is treated apart). *)
Inductive Call :=
| Admin_register_admin (admin_data : pyval)
| Admin_get_all_non_staff (token : pyval)
| Admin_change_account_status (token : pyval) (user_email new_status : string)
| Admin_health_check
| Alert_root
| Alert_health_check
| Command_health_check
| Command_add_command (command_data : pyval)
| Command_get_commands (device_id : string)
| Command_delete_commands (device_id : string)
| Onboarding_health_check
| Onboarding_add_new_device (device_data : pyval)
| Onboarding_get_my_devices (user_id : Z + string)
| Onboarding_get_user_id_by_device_id (device_id : string)
| Telemetry_health_check
| Telemetry_get_latest (device_id : string)
| Telemetry_get_device_status (device_id : string)
| Health_health_check
| Health_get_latest_health (device_id : string)
| Notification_root
| Notification_health_check
| Parking_create_parking_slot (slot_data token : pyval)
| Parking_list_parking_slots (status : option string)
| Parking_get_parking_slot (slot_id : string)
| Parking_update_parking_slot (slot_id : string) (updates token : pyval)
| Parking_delete_parking_slot (slot_id : string) (token : pyval)
| Parking_assign_parking_slot (slot_id : string) (assignment token : pyval)
| Parking_release_parking_slot (slot_id : string) (token : pyval)
| UserAuth_health_check
| UserAuth_register_user (user_data : pyval)
| UserAuth_login_user (credentials : pyval)
| UserAuth_validate_token (token : pyval)
| UserAuth_get_user (user_id : Z + string)
| UserAuth_make_admin (user_id : Z + string)
| UserAuth_get_all_non_staff (token : pyval)
| UserAuth_change_account_status (token : pyval)
    (target_user_email new_status : string).

Definition service_of (c : Call) : Service :=
  match c with
  | Admin_register_admin _ | Admin_get_all_non_staff _
  | Admin_change_account_status _ _ _ | Admin_health_check => AdminManagement
  | Alert_root | Alert_health_check => AlertAndEventProcessing
  | Command_health_check | Command_add_command _ | Command_get_commands _
  | Command_delete_commands _ => DeviceCommand
  | Onboarding_health_check | Onboarding_add_new_device _
  | Onboarding_get_my_devices _ | Onboarding_get_user_id_by_device_id _ =>
      DeviceOnboarding
  | Telemetry_health_check | Telemetry_get_latest _
  | Telemetry_get_device_status _ => DeviceTelemetry
  | Health_health_check | Health_get_latest_health _ => HealthMonitoring
  | Notification_root | Notification_health_check => NotificationMicroservice
  | Parking_create_parking_slot _ _ | Parking_list_parking_slots _
  | Parking_get_parking_slot _ | Parking_update_parking_slot _ _ _
  | Parking_delete_parking_slot _ _ | Parking_assign_parking_slot _ _ _
  | Parking_release_parking_slot _ _ => ParkingSlot
  | UserAuth_health_check | UserAuth_register_user _ | UserAuth_login_user _
  | UserAuth_validate_token _ | UserAuth_get_user _ | UserAuth_make_admin _
  | UserAuth_get_all_non_staff _ | UserAuth_change_account_status _ _ _ =>
      UserAuthentication
  end.

(** The name of the method called. *)
Definition method_name (c : Call) : string :=
  match c with
  | Admin_register_admin _ => "register_admin"
  | Admin_get_all_non_staff _ | UserAuth_get_all_non_staff _ => "get_all_non_staff"
  | Admin_change_account_status _ _ _
  | UserAuth_change_account_status _ _ _ => "change_account_status"
  | Admin_health_check | Alert_health_check | Command_health_check
  | Onboarding_health_check | Telemetry_health_check | Health_health_check
  | Notification_health_check | UserAuth_health_check => "health_check"
  | Alert_root | Notification_root => "root"
  | Command_add_command _ => "add_command"
  | Command_get_commands _ => "get_commands"
  | Command_delete_commands _ => "delete_commands"
  | Onboarding_add_new_device _ => "add_new_device"
  | Onboarding_get_my_devices _ => "get_my_devices"
  | Onboarding_get_user_id_by_device_id _ => "get_user_id_by_device_id"
  | Telemetry_get_latest _ => "get_latest"
  | Telemetry_get_device_status _ => "get_device_status"
  | Health_get_latest_health _ => "get_latest_health"
  | Parking_create_parking_slot _ _ => "create_parking_slot"
  | Parking_list_parking_slots _ => "list_parking_slots"
  | Parking_get_parking_slot _ => "get_parking_slot"
  | Parking_update_parking_slot _ _ _ => "update_parking_slot"
  | Parking_delete_parking_slot _ _ => "delete_parking_slot"
  | Parking_assign_parking_slot _ _ _ => "assign_parking_slot"
  | Parking_release_parking_slot _ _ => "release_parking_slot"
  | UserAuth_register_user _ => "register_user"
  | UserAuth_login_user _ => "login_user"
  | UserAuth_validate_token _ => "validate_token"
  | UserAuth_get_user _ => "get_user"
  | UserAuth_make_admin _ => "make_admin"
  end.

(** The caller-held token a method forwards, when it takes one. *)
Definition token_of (c : Call) : option pyval :=
  match c with
  | Admin_get_all_non_staff token
  | Admin_change_account_status token _ _
  | Parking_create_parking_slot _ token
  | Parking_update_parking_slot _ _ token
  | Parking_delete_parking_slot _ token
  | Parking_assign_parking_slot _ _ token
  | Parking_release_parking_slot _ token
  | UserAuth_validate_token token
  | UserAuth_get_all_non_staff token
  | UserAuth_change_account_status token _ _ => Some token
  | _ => None
  end.

(** Running a call: the method of the facade's class. *)
Definition run (c : Call) : Coroutine :=
  match c with
  | Admin_register_admin d => AdminManagementService.register_admin d
  | Admin_get_all_non_staff tok => AdminManagementService.get_all_non_staff tok
  | Admin_change_account_status tok e st =>
      AdminManagementService.change_account_status tok e st
  | Admin_health_check => AdminManagementService.health_check
  | Alert_root => AlertAndEventProcessingService.root
  | Alert_health_check => AlertAndEventProcessingService.health_check
  | Command_health_check => DeviceCommandService.health_check
  | Command_add_command d => DeviceCommandService.add_command d
  | Command_get_commands i => DeviceCommandService.get_commands i
  | Command_delete_commands i => DeviceCommandService.delete_commands i
  | Onboarding_health_check => DeviceOnboardingService.health_check
  | Onboarding_add_new_device d => DeviceOnboardingService.add_new_device d
  | Onboarding_get_my_devices u => DeviceOnboardingService.get_my_devices u
  | Onboarding_get_user_id_by_device_id i =>
      DeviceOnboardingService.get_user_id_by_device_id i
  | Telemetry_health_check => DeviceTelemetryService.health_check
  | Telemetry_get_latest i => DeviceTelemetryService.get_latest i
  | Telemetry_get_device_status i => DeviceTelemetryService.get_device_status i
  | Health_health_check => HealthMonitoringService.health_check
  | Health_get_latest_health i => HealthMonitoringService.get_latest_health i
  | Notification_root => NotificationMicroserviceService.root
  | Notification_health_check => NotificationMicroserviceService.health_check
  | Parking_create_parking_slot d tok => ParkingSlotService.create_parking_slot d tok
  | Parking_list_parking_slots st => ParkingSlotService.list_parking_slots st
  | Parking_get_parking_slot i => ParkingSlotService.get_parking_slot i
  | Parking_update_parking_slot i u tok =>
      ParkingSlotService.update_parking_slot i u tok
  | Parking_delete_parking_slot i tok => ParkingSlotService.delete_parking_slot i tok
  | Parking_assign_parking_slot i a tok =>
      ParkingSlotService.assign_parking_slot i a tok
  | Parking_release_parking_slot i tok => ParkingSlotService.release_parking_slot i tok
  | UserAuth_health_check => UserAuthenticationService.health_check
  | UserAuth_register_user d => UserAuthenticationService.register_user d
  | UserAuth_login_user cr => UserAuthenticationService.login_user cr
  | UserAuth_validate_token tok => UserAuthenticationService.validate_token tok
  | UserAuth_get_user u => UserAuthenticationService.get_user u
  | UserAuth_make_admin u => UserAuthenticationService.make_admin u
  | UserAuth_get_all_non_staff tok => UserAuthenticationService.get_all_non_staff tok
  | UserAuth_change_account_status tok e st =>
      UserAuthenticationService.change_account_status tok e st
  end.

(** The calls a [ServiceClient] accepts, for statements about every use
    of a client after its construction. *)
Inductive Op :=
| OpGet (endpoint : string) (kwargs : gmap string pyval)
| OpPost (endpoint : string) (kwargs : gmap string pyval)
| OpPut (endpoint : string) (kwargs : gmap string pyval)
| OpDelete (endpoint : string) (kwargs : gmap string pyval)
| OpClose.

(** The state after one call, whatever it returned or raised. *)
Definition step (tr : Transport) (w : ServiceClient.world) (o : Op)
    : ServiceClient.world :=
  match o with
  | OpGet e k => snd (ServiceClient.get e k tr w)
  | OpPost e k => snd (ServiceClient.post e k tr w)
  | OpPut e k => snd (ServiceClient.put e k tr w)
  | OpDelete e k => snd (ServiceClient.delete e k tr w)
  | OpClose => snd (ServiceClient.close tr w)
  end.

(** The state after a sequence of calls. *)
Definition steps (tr : Transport) (w : ServiceClient.world) (ops : list Op)
    : ServiceClient.world :=
  fold_left (step tr) ops w.

(** The state after exactly one request [r] went from the state [w] to
    the transport: one more entry on the wire, one more line in the log,
    the client itself as it was. *)
Definition issued (w : ServiceClient.world) (r : Request) : ServiceClient.world :=
  {| ServiceClient.self := ServiceClient.self w;
     ServiceClient.wire :=
       ServiceClient.wire w
       ++ [{| via := ServiceClient._client (ServiceClient.self w); request := r |}];
     ServiceClient.log :=
       ServiceClient.log w
       ++ [verb (req_method r) +:+ " "
           +:+ ServiceClient.base_url (ServiceClient.self w) +:+ req_path r] |}.

(** The transport's answer to [r] sent from the state [w]. *)
Definition answer (tr : Transport) (w : ServiceClient.world) (r : Request)
    : Result Response :=
  tr (ServiceClient._client (ServiceClient.self w)) r.

(** ** The error taxonomy of the specification *)

(** [InvalidConfiguration]: the [ValueError] of [ServiceClient.__init__]. *)
Inductive InvalidConfiguration : exn -> Prop :=
| base_url_required :
    InvalidConfiguration (ValueError "base_url is required").

(** [InvalidArgument]: the exceptions raised for a malformed token and for
    malformed or unsupported login credentials. *)
Inductive InvalidArgument : exn -> Prop :=
| malformed_token :
    InvalidArgument
      (TypeError "token must be a str or dict with token information")
| malformed_credentials :
    InvalidArgument
      (ValueError "Credentials must include email/username and password")
| unsupported_credentials :
    InvalidArgument (TypeError "Unsupported credentials type for login_user").

(** The two ways a request method can end: exactly one request reached
    the transport and the transport's answer is the method's outcome, or
    an argument was rejected and nothing at all happened. *)
Definition forwarded (tr : Transport) (w : ServiceClient.world)
    (out : Result Response * ServiceClient.world) : Prop :=
  exists r, out = (answer tr w r, issued w r).

Definition rejected (w : ServiceClient.world)
    (out : Result Response * ServiceClient.world) : Prop :=
  exists e, InvalidArgument e /\ out = (Raise e, w).

(** A third way, of [login_user] alone: the credentials passed the
    method's own checks but httpx.BasicAuth did not take them; its
    [TypeError] is the outcome and, again, nothing at all happened. *)
Definition turned_down (w : ServiceClient.world)
    (out : Result Response * ServiceClient.world) : Prop :=
  out = (Raise BasicAuth_TypeError, w).

(** What [login_user] sends once the credentials resolved to [auth_obj]. *)
Definition login_request (auth_obj : pyval) : Request :=
  {| req_method := POST; req_path := "/login";
     req_kwargs := {[ "auth" := auth_obj ]} |}.

(** ** Sample clients and transports for concrete runs *)

(** A client as [ServiceClient(url)] builds it when [url] is not empty and
    has no trailing slash. *)
Definition client_at (url : string) : ServiceClient.t :=
  {| ServiceClient.base_url := url;
     ServiceClient.timeout := ServiceClient.default_timeout;
     ServiceClient._client := {| ac_base_url := url;
                                 ac_timeout := ServiceClient.default_timeout;
                                 is_closed := false |} |}.

(** A transport that answers every request with an empty 200 response,
    and one that never gets through. *)
Definition always_ok : Transport :=
  fun _ _ => Return {| status_code := 200; content := "" |}.

Definition unreachable : Transport :=
  fun _ _ => Raise (TransportError "refused").

(** ** Notions used to state properties of whole sessions *)

(** The client and the [httpx.AsyncClient] it owns agree on the base URL
    and the timeout, as [__init__] sets them up. *)
Definition coherent (c : ServiceClient.t) : Prop :=
  ServiceClient.base_url c = ac_base_url (ServiceClient._client c) /\
  ServiceClient.timeout c = ac_timeout (ServiceClient._client c).

(** The client after [close]. *)
Definition closed (c : ServiceClient.t) : ServiceClient.t :=
  {| ServiceClient.base_url := ServiceClient.base_url c;
     ServiceClient.timeout := ServiceClient.timeout c;
     ServiceClient._client :=
       {| ac_base_url := ac_base_url (ServiceClient._client c);
          ac_timeout := ac_timeout (ServiceClient._client c);
          is_closed := true |} |}.

(** The log line that belongs to a request on the wire. *)
Definition describe (s : Sent) : string :=
  verb (req_method (request s)) +:+ " " +:+ sent_url s.

(** Whether a call of the client is one of the four verbs. *)
Definition is_verb (o : Op) : bool :=
  match o with OpClose => false | _ => true end.

(** The same call with another token, for the methods that take one. *)
Definition with_token (c : Call) (token : pyval) : Call :=
  match c with
  | Admin_get_all_non_staff _ => Admin_get_all_non_staff token
  | Admin_change_account_status _ e st => Admin_change_account_status token e st
  | Parking_create_parking_slot d _ => Parking_create_parking_slot d token
  | Parking_update_parking_slot i u _ => Parking_update_parking_slot i u token
  | Parking_delete_parking_slot i _ => Parking_delete_parking_slot i token
  | Parking_assign_parking_slot i a _ => Parking_assign_parking_slot i a token
  | Parking_release_parking_slot i _ => Parking_release_parking_slot i token
  | UserAuth_validate_token _ => UserAuth_validate_token token
  | UserAuth_get_all_non_staff _ => UserAuth_get_all_non_staff token
  | UserAuth_change_account_status _ e st =>
      UserAuth_change_account_status token e st
  | _ => c
  end.

(** The credentials [login_user] resolves to an auth object: an
    httpx.Auth instance; an object whose attributes username and password
    are strings; a dictionary whose email (or else username) and password
    are truthy and are strings, so that httpx.BasicAuth takes them. *)
Definition credentials_ok (credentials : pyval) : bool :=
  is_auth credentials
  || ((hasattr credentials "username" && hasattr credentials "password")
      && (is_str (getattr credentials "username")
          && is_str (getattr credentials "password")))
  || match credentials with
     | PyDict d =>
         negb (negb (truthy (py_or (dict_get d "email") (dict_get d "username")))
               || negb (truthy (dict_get d "password")))
         && (is_str (py_or (dict_get d "email") (dict_get d "username"))
             && is_str (dict_get d "password"))
     | _ => false
     end.

(** The calls whose arguments pass the checks made before the request. *)
Definition well_formed (c : Call) : bool :=
  match c with
  | UserAuth_login_user credentials => credentials_ok credentials
  | _ =>
      match token_of c with
      | Some token => is_str token || is_dict token
      | None => true
      end
  end.

(** The two shapes of a call, uniformly in the transport and the state. *)
Definition sends_request (c : Call) (r : Request) : Prop :=
  forall (tr : Transport) (w : ServiceClient.world),
    run c tr w = (answer tr w r, issued w r).

Definition raises (c : Call) (e : exn) : Prop :=
  forall (tr : Transport) (w : ServiceClient.world), run c tr w = (Raise e, w).

(** A request as the facades build them: no keyword argument other than
    [json], [params] and [auth]; no body and no credentials on a GET; never
    a body together with credentials; a path that starts with a slash. *)
Definition plain_kwargs (r : Request) : Prop :=
  (forall k : string,
      k <> "json" -> k <> "params" -> k <> "auth" -> req_kwargs r !! k = None) /\
  (req_method r = GET ->
   req_kwargs r !! "json" = None /\ req_kwargs r !! "auth" = None) /\
  (req_kwargs r !! "json" = None \/ req_kwargs r !! "auth" = None) /\
  startswith (req_path r) "/" = true.

(** The verb and the path of the remote endpoint each method is written
    for. *)
Definition endpoint_of (c : Call) : Method * string :=
  match c with
  | Admin_register_admin _ => (POST, "/register_admin")
  | Admin_get_all_non_staff _ => (POST, "/get_all_non_staff")
  | Admin_change_account_status _ _ _ => (POST, "/change_account_status")
  | Admin_health_check | Alert_health_check | Command_health_check
  | Onboarding_health_check | Telemetry_health_check | Health_health_check
  | Notification_health_check | UserAuth_health_check => (GET, "/health")
  | Alert_root | Notification_root => (GET, "/")
  | Command_add_command _ => (POST, "/add_command")
  | Command_get_commands i => (GET, "/commands/" +:+ i)
  | Command_delete_commands i => (DELETE, "/commands/delete/" +:+ i)
  | Onboarding_add_new_device _ => (POST, "/add_new_device")
  | Onboarding_get_my_devices u => (GET, "/get_my_devices/" +:+ py_str u)
  | Onboarding_get_user_id_by_device_id i =>
      (GET, "/get_user_id_by_device_id/" +:+ i)
  | Telemetry_get_latest i => (GET, "/latest/" +:+ i)
  | Telemetry_get_device_status i => (GET, "/device/status/" +:+ i)
  | Health_get_latest_health i => (GET, "/" +:+ i +:+ "/latest")
  | Parking_create_parking_slot _ _ => (POST, "/parking_slots")
  | Parking_list_parking_slots _ => (GET, "/parking_slots")
  | Parking_get_parking_slot i => (GET, "/parking_slots/" +:+ i)
  | Parking_update_parking_slot i _ _ => (PUT, "/parking_slots/" +:+ i)
  | Parking_delete_parking_slot i _ => (DELETE, "/parking_slots/" +:+ i)
  | Parking_assign_parking_slot i _ _ =>
      (POST, "/parking_slots/" +:+ i +:+ "/assign")
  | Parking_release_parking_slot i _ =>
      (POST, "/parking_slots/" +:+ i +:+ "/release")
  | UserAuth_register_user _ => (POST, "/register")
  | UserAuth_login_user _ => (POST, "/login")
  | UserAuth_validate_token _ => (POST, "/validate")
  | UserAuth_get_user u => (GET, "/user/" +:+ py_str u)
  | UserAuth_make_admin u => (POST, "/user/" +:+ py_str u +:+ "/make_admin")
  | UserAuth_get_all_non_staff _ => (POST, "/users/non_staff")
  | UserAuth_change_account_status _ _ _ => (POST, "/change_account_status")
  end.

(** The state after a sequence of facade calls, whatever each returned or
    raised. *)
Definition run_all (tr : Transport) (w : ServiceClient.world) (cs : list Call)
    : ServiceClient.world :=
  fold_left (fun w c => snd (run c tr w)) cs w.

(** * Properties *)

(** ** Path normalisation *)

Section Normalise.

Import ServiceClient.

Lemma startswith_slash_cons (p : string) : startswith ("/" +:+ p) "/" = true.
Proof. unfold startswith. simpl. destruct p; reflexivity. Qed.

Lemma _normalise_leading (p : string) : startswith (_normalise p) "/" = true.
Proof.
  unfold _normalise.
  destruct (startswith p "/") eqn:Hp; [exact Hp | apply startswith_slash_cons].
Qed.

Lemma _normalise_fixed (p : string) :
  startswith p "/" = true -> _normalise p = p.
Proof. intros Hp. unfold _normalise. now rewrite Hp. Qed.

End Normalise.

(** C4. Path normalisation is idempotent and ensures a leading separator:
    normalising twice is normalising once, the result always starts with
    "/", and both "health" and "/health" normalise to "/health". *)
Theorem normalise_idempotent :
  (forall p : string,
      ServiceClient._normalise (ServiceClient._normalise p)
      = ServiceClient._normalise p) /\
  (forall p : string, startswith (ServiceClient._normalise p) "/" = true) /\
  ServiceClient._normalise "health" = "/health" /\
  ServiceClient._normalise "/health" = "/health".
Proof.
  repeat split.
  - intros p. apply _normalise_fixed, _normalise_leading.
  - apply _normalise_leading.
Qed.

(** ** Construction of a ServiceClient *)

Section Construction.

Import ServiceClient.

Lemma truthy_str (s : string) : truthy (PyStr s) = false <-> s = "".
Proof.
  simpl. rewrite negb_false_iff. apply String.eqb_eq.
Qed.

Lemma truthy_str_nonempty (s : string) : s <> "" -> truthy (PyStr s) = true.
Proof.
  intros Hs. destruct (truthy (PyStr s)) eqn:E; [reflexivity |].
  apply truthy_str in E. contradiction.
Qed.

Lemma init_empty (t : Q) : init "" t = Raise (ValueError "base_url is required").
Proof. reflexivity. Qed.

Lemma init_nonempty (b : string) (t : Q) :
  b <> "" ->
  init b t =
  Return {| base_url := rstrip b "/";
            timeout := t;
            _client := {| ac_base_url := rstrip b "/";
                          ac_timeout := t;
                          is_closed := false |} |}.
Proof.
  intros Hb. unfold init. now rewrite (truthy_str_nonempty b Hb).
Qed.

Lemma init_raises_iff (b : string) (t : Q) (e : exn) :
  init b t = Raise e <-> b = "" /\ e = ValueError "base_url is required".
Proof.
  split.
  - intros H. destruct (decide (b = "")) as [-> | Hb].
    + rewrite init_empty in H. now inversion H.
    + rewrite (init_nonempty b t Hb) in H. discriminate H.
  - intros [-> ->]. apply init_empty.
Qed.

Lemma rstrip_all_chars_in (s chars : string) :
  all_chars_in s chars = true -> rstrip s chars = "".
Proof.
  induction s as [| c s IH]; simpl; [reflexivity |].
  intros H. apply andb_true_iff in H as [Hc Hs].
  now rewrite (IH Hs), Hc.
Qed.

(** No method of the client assigns [self.base_url]. *)
Lemma step_base_url (tr : Transport) (w : world) (o : Op) :
  base_url (self (step tr w o)) = base_url (self w).
Proof. destruct o; reflexivity. Qed.

Lemma steps_base_url (tr : Transport) (ops : list Op) :
  forall w : world, base_url (self (steps tr w ops)) = base_url (self w).
Proof.
  unfold steps. induction ops as [| o ops IH]; intros w; simpl.
  - reflexivity.
  - now rewrite IH, step_base_url.
Qed.

End Construction.

Section CheckedConstruction.

Import ServiceClient.

Variable reject : Verdict.

(** Under an httpx that accepts everything [__init__] is [init]. *)
Lemma __init___accepting (b : string) (t : Q) : __init__ accepting b t = init b t.
Proof. reflexivity. Qed.

Lemma __init___empty (t : Q) :
  __init__ reject "" t = Raise (ValueError "base_url is required").
Proof. reflexivity. Qed.

Lemma __init___accepted (b : string) (t : Q) :
  b <> "" ->
  reject (rstrip b "/") t = None ->
  __init__ reject b t = init b t.
Proof.
  intros Hb Hr. unfold __init__, init, httpx_AsyncClient.
  now rewrite (truthy_str_nonempty b Hb), Hr.
Qed.

Lemma __init___rejected (b : string) (t : Q) (e : exn) :
  b <> "" ->
  reject (rstrip b "/") t = Some e ->
  __init__ reject b t = Raise e.
Proof.
  intros Hb Hr. unfold __init__, httpx_AsyncClient.
  now rewrite (truthy_str_nonempty b Hb), Hr.
Qed.


End CheckedConstruction.

(** C8, as amended. Constructing a ServiceClient with an empty base URL
    raises the InvalidConfiguration error, before httpx is involved. With a
    non-empty base URL construction succeeds when httpx.AsyncClient accepts
    the URL (its trailing slashes stripped) and otherwise raises the error
    of httpx.AsyncClient; when it succeeds the stored base URL is the
    stripped argument and no sequence of calls on the client changes it. *)
Theorem ServiceClient_requires_base_url (reject : Verdict) (t : Q) :
  (exists e, ServiceClient.__init__ reject "" t = Raise e /\
             InvalidConfiguration e) /\
  (forall b : string,
      b <> "" ->
      (reject (rstrip b "/") t = None ->
       exists c,
         ServiceClient.__init__ reject b t = Return c /\
         ServiceClient.base_url c = rstrip b "/" /\
         forall (tr : Transport) (w : ServiceClient.world) (ops : list Op),
           ServiceClient.self w = c ->
           ServiceClient.base_url (ServiceClient.self (steps tr w ops))
           = ServiceClient.base_url c) /\
      (forall e : exn,
          reject (rstrip b "/") t = Some e ->
          ServiceClient.__init__ reject b t = Raise e)).
Proof.
  split.
  - eexists. split; [apply __init___empty | constructor].
  - intros b Hb. split.
    + intros Hr. eexists. split.
      * rewrite (__init___accepted reject b t Hb Hr).
        apply (init_nonempty b t Hb).
      * split; [reflexivity |]. intros tr w ops <-. apply steps_base_url.
    + intros e Hr. now apply __init___rejected.
Qed.

Lemma ServiceClient_requires_base_url_witness :
  (exists c,
      ServiceClient.__init__ rejects_port_abc "http://x/" 30 = Return c /\
      ServiceClient.base_url c = "http://x" /\
      ServiceClient.base_url
        (ServiceClient.self
           (steps unreachable (ServiceClient.fresh c)
              [OpGet "health" ∅; OpClose; OpPost "x" ∅]))
      = "http://x") /\
  ServiceClient.__init__ rejects_port_abc "http://x:abc/" 30
  = Raise (InvalidURL "Invalid port: 'abc'").
Proof.
  destruct (proj2 (ServiceClient_requires_base_url rejects_port_abc 30)
              "http://x/") as [Hok _]; [discriminate |].
  destruct (proj2 (ServiceClient_requires_base_url rejects_port_abc 30)
              "http://x:abc/") as [_ Hno]; [discriminate |].
  split.
  - destruct Hok as (c & Hinit & Hbase & Hkeep); [reflexivity |].
    exists c. split; [exact Hinit |]. split; [exact Hbase |].
    rewrite (Hkeep _ (ServiceClient.fresh c) _ eq_refl). exact Hbase.
  - apply Hno. reflexivity.
Defined.

(** C8, as stated, fails: a non-empty base URL that httpx.AsyncClient
    does not accept, such as one whose port is not a number, makes the
    constructor raise the error of httpx. *)
Lemma ServiceClient_rejects_invalid_url :
  ServiceClient.__init__ rejects_port_abc "http://x:abc" 30
  = Raise (InvalidURL "Invalid port: 'abc'") /\
  ~ (forall (reject : Verdict) (b : string) (t : Q),
        b <> "" -> exists c, ServiceClient.__init__ reject b t = Return c).
Proof.
  split; [reflexivity |].
  intros H.
  destruct (H rejects_port_abc "http://x:abc" 30%Q) as [c Hc];
    [discriminate | discriminate Hc].
Qed.

(** C10. For a base URL made only of "/" characters (and not empty)
    construction succeeds, because the emptiness test comes before the
    trailing slashes are stripped, and the stored base URL is the empty
    string. *)
Theorem ServiceClient_only_slashes (b : string) (t : Q) :
  b <> "" ->
  all_chars_in b "/" = true ->
  exists c,
    ServiceClient.init b t = Return c /\
    ServiceClient.base_url c = "" /\
    ac_base_url (ServiceClient._client c) = "".
Proof.
  intros Hb Hall. eexists. split; [apply (init_nonempty b t Hb) |].
  simpl. now rewrite (rstrip_all_chars_in b "/" Hall).
Qed.

Lemma ServiceClient_only_slashes_witness :
  exists c,
    ServiceClient.init "/" 30 = Return c /\
    ServiceClient.base_url c = "" /\
    ac_base_url (ServiceClient._client c) = "".
Proof.
  apply (ServiceClient_only_slashes "/" 30); [discriminate | reflexivity].
Defined.

(** ** Construction of a facade *)

Section FacadeConstruction.

Lemma construct_unfold (s : Service) (base_url : option string) (t : Q)
    (environ : gmap string string) :
  construct s base_url t environ =
  ServiceClient.init
    (str_or base_url (getenv environ (env_var s) (default_url s))) t.
Proof.
  destruct s;
    cbv [construct env_var default_url
         AdminManagementService.init AlertAndEventProcessingService.init
         DeviceCommandService.init DeviceOnboardingService.init
         DeviceTelemetryService.init HealthMonitoringService.init
         NotificationMicroserviceService.init ParkingSlotService.init
         UserAuthenticationService.init];
    match goal with
    | |- context [ServiceClient.init ?u t] =>
        destruct (ServiceClient.init u t); reflexivity
    end.
Qed.





End FacadeConstruction.

Section CheckedFacadeConstruction.

Variable reject : Verdict.


(** With an httpx that accepts everything this is [construct]. *)
Lemma construct_with_accepting (s : Service) (base_url : option string)
    (t : Q) (environ : gmap string string) :
  construct_with accepting s base_url t environ
  = construct s base_url t environ.
Proof. destruct s; reflexivity. Qed.

End CheckedFacadeConstruction.




(** ** Request methods *)

(** Unfolding a call to the body of the facade method it runs. *)
Ltac unfold_methods :=
  cbv [run
       AdminManagementService.register_admin
       AdminManagementService.get_all_non_staff
       AdminManagementService.change_account_status
       AdminManagementService.health_check
       AlertAndEventProcessingService.root
       AlertAndEventProcessingService.health_check
       DeviceCommandService.health_check DeviceCommandService.add_command
       DeviceCommandService.get_commands DeviceCommandService.delete_commands
       DeviceOnboardingService.health_check
       DeviceOnboardingService.add_new_device
       DeviceOnboardingService.get_my_devices
       DeviceOnboardingService.get_user_id_by_device_id
       DeviceTelemetryService.health_check DeviceTelemetryService.get_latest
       DeviceTelemetryService.get_device_status
       HealthMonitoringService.health_check
       HealthMonitoringService.get_latest_health
       NotificationMicroserviceService.root
       NotificationMicroserviceService.health_check
       ParkingSlotService.create_parking_slot
       ParkingSlotService.list_parking_slots
       ParkingSlotService.get_parking_slot
       ParkingSlotService.update_parking_slot
       ParkingSlotService.delete_parking_slot
       ParkingSlotService.assign_parking_slot
       ParkingSlotService.release_parking_slot
       UserAuthenticationService.health_check
       UserAuthenticationService.register_user
       UserAuthenticationService.login_user
       UserAuthenticationService.validate_token
       UserAuthenticationService.get_user
       UserAuthenticationService.make_admin
       UserAuthenticationService.get_all_non_staff
       UserAuthenticationService.change_account_status].

Section Requests.

Import ServiceClient.

Variable tr : Transport.
Variable w : world.

Lemma get_run (endpoint : string) (kwargs : gmap string pyval) :
  get endpoint kwargs tr w =
  let r := {| req_method := GET; req_path := _normalise endpoint;
              req_kwargs := kwargs |} in
  (answer tr w r, issued w r).
Proof. reflexivity. Qed.

Lemma post_run (endpoint : string) (kwargs : gmap string pyval) :
  post endpoint kwargs tr w =
  let r := {| req_method := POST; req_path := _normalise endpoint;
              req_kwargs := kwargs |} in
  (answer tr w r, issued w r).
Proof. reflexivity. Qed.

Lemma put_run (endpoint : string) (kwargs : gmap string pyval) :
  put endpoint kwargs tr w =
  let r := {| req_method := PUT; req_path := _normalise endpoint;
              req_kwargs := kwargs |} in
  (answer tr w r, issued w r).
Proof. reflexivity. Qed.

Lemma delete_run (endpoint : string) (kwargs : gmap string pyval) :
  delete endpoint kwargs tr w =
  let r := {| req_method := DELETE; req_path := _normalise endpoint;
              req_kwargs := kwargs |} in
  (answer tr w r, issued w r).
Proof. reflexivity. Qed.

(** A state to which a request was added is not the state before. *)
Lemma issued_neq (r : Request) : issued w r <> w.
Proof.
  intros H. apply (f_equal (fun x => length (wire x))) in H.
  simpl in H. rewrite length_app in H. simpl in H. lia.
Qed.

Lemma issued_inj (r r' : Request) : issued w r = issued w r' -> r = r'.
Proof.
  intros H. apply (f_equal wire) in H. simpl in H.
  apply app_inv_head in H. now inversion H.
Qed.

Lemma forwarded_inv (a b : Result Response) (r r' : Request) :
  (a, issued w r) = (b, issued w r') -> r = r'.
Proof. intros H. apply issued_inj. exact (f_equal snd H). Qed.

Lemma rejected_not_forwarded (a b : Result Response) (r : Request) :
  (a, w) = (b, issued w r) -> False.
Proof. intros H. apply (issued_neq r). symmetry. exact (f_equal snd H). Qed.

End Requests.

(** A method that goes straight to a verb of the client. *)
Ltac one_request :=
  first [apply get_run | apply post_run | apply put_run | apply delete_run].

Section TokenPayload.

Lemma _normalise_token_payload_str (s : string) :
  _normalise_token_payload (PyStr s) = Return (PyDict {[ "token" := PyStr s ]}).
Proof. reflexivity. Qed.

Lemma _normalise_token_payload_with (m : gmap string pyval) (v : pyval) :
  m !! "token" = Some v ->
  _normalise_token_payload (PyDict m) = Return (PyDict {[ "token" := v ]}).
Proof. intros H. simpl. now rewrite H. Qed.

Lemma _normalise_token_payload_without (m : gmap string pyval) :
  m !! "token" = None ->
  _normalise_token_payload (PyDict m) = Return (PyDict m).
Proof. intros H. simpl. now rewrite H. Qed.

Lemma _normalise_token_payload_other (token : pyval) :
  is_str token = false -> is_dict token = false ->
  _normalise_token_payload token =
  Raise (TypeError "token must be a str or dict with token information").
Proof. destruct token; simpl; intros; try reflexivity; discriminate. Qed.

Lemma _normalise_token_payload_raises (token : pyval) (e : exn) :
  _normalise_token_payload token = Raise e ->
  e = TypeError "token must be a str or dict with token information" /\
  is_str token = false /\ is_dict token = false.
Proof.
  destruct token; simpl; intros H; try (now inversion H).
  destruct (d !! "token"); discriminate H.
Qed.

End TokenPayload.

Section FailFast.

Variable tr : Transport.
Variable w : ServiceClient.world.

Lemma token_then (token : pyval) (k : pyval -> Coroutine) :
  (forall payload, forwarded tr w (k payload tr w)) ->
  forwarded tr w (bind (lift (_normalise_token_payload token)) k tr w) \/
  rejected w (bind (lift (_normalise_token_payload token)) k tr w).
Proof.
  intros Hk. unfold bind, lift.
  destruct (_normalise_token_payload token) as [e | payload] eqn:E.
  - right. exists e. split; [| reflexivity].
    apply _normalise_token_payload_raises in E as [-> _]. constructor.
  - left. apply Hk.
Qed.

(** How [login_user] ends, uniformly in the transport and the state: it
    resolves the credentials to an auth object and posts it, or it raises
    before anything is logged or sent. *)
Lemma login_user_outcome (credentials : pyval) :
  (credentials_ok credentials = true /\
   exists auth_obj, forall tr' w',
     UserAuthenticationService.login_user credentials tr' w'
     = (answer tr' w' (login_request auth_obj),
        issued w' (login_request auth_obj))) \/
  (credentials_ok credentials = false /\
   exists e, (InvalidArgument e \/ e = BasicAuth_TypeError) /\
     forall tr' w',
       UserAuthenticationService.login_user credentials tr' w' = (Raise e, w')).
Proof.
  unfold credentials_ok, UserAuthenticationService.login_user, bind, lift,
    httpx_BasicAuth.
  destruct (is_auth credentials) eqn:Ha.
  { left. split; [reflexivity |]. exists credentials. intros. apply post_run. }
  destruct (hasattr credentials "username" && hasattr credentials "password")
    eqn:Hh.
  { destruct (is_str (getattr credentials "username")
              && is_str (getattr credentials "password")) eqn:Hs.
    - left. split; [reflexivity |]. eexists. intros. apply post_run.
    - right. split.
      + destruct credentials; try discriminate Hh; reflexivity.
      + exists BasicAuth_TypeError. split; [now right | reflexivity]. }
  destruct credentials;
    try (right; split; [reflexivity |]; eexists;
         split; [left; apply unsupported_credentials | reflexivity]).
  destruct (negb _ || negb _).
  - right. split; [reflexivity |]. eexists.
    split; [left; apply malformed_credentials | reflexivity].
  - destruct (is_str (py_or _ _) && is_str _).
    + left. split; [reflexivity |]. eexists. intros. apply post_run.
    + right. split; [reflexivity |]. exists BasicAuth_TypeError.
      split; [now right | reflexivity].
Qed.

Lemma login_user_ends (credentials : pyval) :
  forwarded tr w (UserAuthenticationService.login_user credentials tr w) \/
  rejected w (UserAuthenticationService.login_user credentials tr w) \/
  turned_down w (UserAuthenticationService.login_user credentials tr w).
Proof.
  destruct (login_user_outcome credentials)
    as [[_ [a Ha]] | [_ (e & [He | ->] & Hr)]].
  - left. eexists. apply Ha.
  - right. left. exists e. split; [exact He | apply Hr].
  - right. right. apply Hr.
Qed.

End FailFast.

(** C3. Every call of a request method of a facade ends in one of these
    ways. Either exactly one request is handed to the transport and the
    call's outcome is the transport's answer to it, unchanged. Or the call
    fails before anything is logged or sent, with the state untouched, so
    the transport was never invoked: it raises an InvalidArgument error
    (malformed token, malformed or unsupported credentials), or, for
    login_user with credentials that httpx.BasicAuth does not take, the
    TypeError of httpx.BasicAuth. *)
Theorem fail_fast (c : Call) (tr : Transport) (w : ServiceClient.world) :
  forwarded tr w (run c tr w) \/
  rejected w (run c tr w) \/
  turned_down w (run c tr w).
Proof.
  destruct c; try apply login_user_ends; unfold_methods;
    try (apply or_assoc; left; apply token_then; intros payload);
    try left; eexists; one_request.
Qed.

(** ** Token payload normalisation *)

Section TokenCalls.

Variable tr : Transport.
Variable w : ServiceClient.world.

(** A token that is neither a string nor a dictionary stops every method
    that forwards it, before anything is sent. *)
Lemma token_rejected (c : Call) (token : pyval) :
  token_of c = Some token ->
  is_str token = false -> is_dict token = false ->
  run c tr w =
  (Raise (TypeError "token must be a str or dict with token information"), w).
Proof.
  intros Hc Hs Hd.
  destruct c; simpl in Hc; try discriminate Hc;
    injection Hc as ->; unfold_methods; unfold bind, lift;
    now rewrite (_normalise_token_payload_other token Hs Hd).
Qed.

End TokenCalls.

(** C1. Token payload normalisation: a string s gives {token: s}; a
    mapping with the key token gives {token: m[token]}, the other keys
    dropped; a mapping without the key is returned unchanged; a value of
    any other type raises the InvalidArgument error, and a facade method
    given such a token raises it with the state untouched, before any
    request reaches the transport. *)
Theorem token_payload_normalisation :
  (forall s : string,
      _normalise_token_payload (PyStr s)
      = Return (PyDict {[ "token" := PyStr s ]})) /\
  (forall (m : gmap string pyval) (v : pyval),
      m !! "token" = Some v ->
      _normalise_token_payload (PyDict m) = Return (PyDict {[ "token" := v ]})) /\
  (forall m : gmap string pyval,
      m !! "token" = None ->
      _normalise_token_payload (PyDict m) = Return (PyDict m)) /\
  (forall token : pyval,
      is_str token = false -> is_dict token = false ->
      (exists e, InvalidArgument e /\ _normalise_token_payload token = Raise e) /\
      (forall (c : Call) (tr : Transport) (w : ServiceClient.world),
          token_of c = Some token -> rejected w (run c tr w))).
Proof.
  split; [exact _normalise_token_payload_str |].
  split; [exact _normalise_token_payload_with |].
  split; [exact _normalise_token_payload_without |].
  intros token Hs Hd. split.
  - eexists. split; [apply malformed_token |].
    apply (_normalise_token_payload_other token Hs Hd).
  - intros c tr w Hc. eexists. split; [apply malformed_token |].
    apply (token_rejected tr w c token Hc Hs Hd).
Qed.

Lemma token_payload_normalisation_witness :
  _normalise_token_payload
    (PyDict {[ "token" := PyStr "abc"; "user" := PyStr "bob" ]})
  = Return (PyDict {[ "token" := PyStr "abc" ]}) /\
  _normalise_token_payload (PyDict {[ "user" := PyStr "bob" ]})
  = Return (PyDict {[ "user" := PyStr "bob" ]}) /\
  rejected (ServiceClient.fresh (client_at "http://x"))
    (run (UserAuth_validate_token (PyInt 7))
       always_ok
       (ServiceClient.fresh (client_at "http://x"))).
Proof.
  destruct token_payload_normalisation as (_ & Hwith & Hwithout & Hother).
  split; [| split].
  - apply Hwith. reflexivity.
  - apply Hwithout. reflexivity.
  - apply (Hother (PyInt 7)); reflexivity.
Defined.

(** ** Parking slots: the request envelope *)

Section Envelope.

Variable tr : Transport.
Variable w : ServiceClient.world.

Lemma create_parking_slot_run (slot_data token payload : pyval) :
  _normalise_token_payload token = Return payload ->
  ParkingSlotService.create_parking_slot slot_data token tr w =
  let r := {| req_method := POST;
              req_path := "/parking_slots";
              req_kwargs :=
                {[ "json" := PyDict {[ "payload" := slot_data;
                                       "authorization" := payload ]} ]} |} in
  (answer tr w r, issued w r).
Proof.
  intros H. unfold ParkingSlotService.create_parking_slot, bind, lift.
  rewrite H. apply post_run.
Qed.

Lemma update_parking_slot_run (slot_id : string) (updates token payload : pyval) :
  _normalise_token_payload token = Return payload ->
  ParkingSlotService.update_parking_slot slot_id updates token tr w =
  let r := {| req_method := PUT;
              req_path := "/parking_slots/" +:+ slot_id;
              req_kwargs :=
                {[ "json" := PyDict {[ "payload" := updates;
                                       "authorization" := payload ]} ]} |} in
  (answer tr w r, issued w r).
Proof.
  intros H. unfold ParkingSlotService.update_parking_slot, bind, lift.
  rewrite H. apply put_run.
Qed.

Lemma assign_parking_slot_run (slot_id : string) (assignment token payload : pyval) :
  _normalise_token_payload token = Return payload ->
  ParkingSlotService.assign_parking_slot slot_id assignment token tr w =
  let r := {| req_method := POST;
              req_path := "/parking_slots/" +:+ slot_id +:+ "/assign";
              req_kwargs :=
                {[ "json" := PyDict {[ "body" := assignment;
                                       "authorization" := payload ]} ]} |} in
  (answer tr w r, issued w r).
Proof.
  intros H. unfold ParkingSlotService.assign_parking_slot, bind, lift.
  rewrite H. apply post_run.
Qed.

End Envelope.

(** C5. A ParkingSlotService built with base URL "http://x" answers
    create_parking_slot({"spot": "A1"}, "tok123") by exactly one request:
    POST to http://x/parking_slots with the JSON body {"payload": {"spot":
    "A1"}, "authorization": {"token": "tok123"}}. In general the envelope
    of create and update carries the data under [payload], that of assign
    under [body], next to the normalised token under [authorization]. *)
Theorem create_parking_slot_envelope :
  (forall (t : Q) (environ : gmap string string) (tr : Transport),
      exists f,
        ParkingSlotService.init (Some "http://x") t environ = Return f /\
        let w := ServiceClient.fresh (ParkingSlotService.client f) in
        let r := {| req_method := POST;
                    req_path := "/parking_slots";
                    req_kwargs :=
                      {[ "json" :=
                           PyDict {[ "payload" := PyDict {[ "spot" := PyStr "A1" ]};
                                     "authorization" :=
                                       PyDict {[ "token" := PyStr "tok123" ]} ]} ]} |} in
        ParkingSlotService.create_parking_slot
          (PyDict {[ "spot" := PyStr "A1" ]}) (PyStr "tok123") tr w
        = (answer tr w r, issued w r) /\
        (exists s, ServiceClient.wire (issued w r) = [s] /\
                   req_method (request s) = POST /\
                   sent_url s = "http://x/parking_slots")) /\
  (forall (tr : Transport) (w : ServiceClient.world) (slot_id : string)
          (data token payload : pyval),
      _normalise_token_payload token = Return payload ->
      (exists r,
          ParkingSlotService.create_parking_slot data token tr w
          = (answer tr w r, issued w r) /\
          req_kwargs r !! "json"
          = Some (PyDict {[ "payload" := data; "authorization" := payload ]})) /\
      (exists r,
          ParkingSlotService.update_parking_slot slot_id data token tr w
          = (answer tr w r, issued w r) /\
          req_kwargs r !! "json"
          = Some (PyDict {[ "payload" := data; "authorization" := payload ]})) /\
      (exists r,
          ParkingSlotService.assign_parking_slot slot_id data token tr w
          = (answer tr w r, issued w r) /\
          req_kwargs r !! "json"
          = Some (PyDict {[ "body" := data; "authorization" := payload ]}))).
Proof.
  split.
  - intros t environ tr. eexists. split; [reflexivity |].
    split; [now apply create_parking_slot_run |].
    eexists. repeat split; reflexivity.
  - intros tr w slot_id data token payload H. repeat split.
    + eexists. split.
      * apply (create_parking_slot_run tr w data token payload H).
      * apply lookup_singleton_eq.
    + eexists. split.
      * apply (update_parking_slot_run tr w slot_id data token payload H).
      * apply lookup_singleton_eq.
    + eexists. split.
      * apply (assign_parking_slot_run tr w slot_id data token payload H).
      * apply lookup_singleton_eq.
Qed.

Lemma create_parking_slot_envelope_witness :
  exists r,
    ParkingSlotService.assign_parking_slot "42"
      (PyDict {[ "user" := PyStr "u1" ]}) (PyStr "tok123")
      unreachable
      (ServiceClient.fresh (client_at "http://x"))
    = (answer unreachable
         (ServiceClient.fresh (client_at "http://x")) r,
       issued
         (ServiceClient.fresh (client_at "http://x")) r) /\
    req_kwargs r !! "json"
    = Some (PyDict {[ "body" := PyDict {[ "user" := PyStr "u1" ]};
                      "authorization" := PyDict {[ "token" := PyStr "tok123" ]} ]}).
Proof.
  apply (proj2 create_parking_slot_envelope
           unreachable _ "42"
           (PyDict {[ "user" := PyStr "u1" ]}) (PyStr "tok123")
           (PyDict {[ "token" := PyStr "tok123" ]})).
  reflexivity.
Defined.

(** ** Logging in *)

Section Login.

Variable tr : Transport.
Variable w : ServiceClient.world.

Lemma login_user_dict_ok (d : gmap string pyval) :
  truthy (py_or (dict_get d "email") (dict_get d "username")) = true ->
  truthy (dict_get d "password") = true ->
  is_str (py_or (dict_get d "email") (dict_get d "username")) = true ->
  is_str (dict_get d "password") = true ->
  UserAuthenticationService.login_user (PyDict d) tr w =
  let r := login_request
             (PyBasicAuth (py_or (dict_get d "email") (dict_get d "username"))
                          (dict_get d "password")) in
  (answer tr w r, issued w r).
Proof.
  intros He Hp Hse Hsp.
  unfold UserAuthenticationService.login_user, bind, lift, httpx_BasicAuth.
  simpl. rewrite He, Hp, Hse, Hsp. simpl. apply post_run.
Qed.

Lemma login_user_dict_bad (d : gmap string pyval) :
  truthy (py_or (dict_get d "email") (dict_get d "username")) = false \/
  truthy (dict_get d "password") = false ->
  UserAuthenticationService.login_user (PyDict d) tr w =
  (Raise (ValueError "Credentials must include email/username and password"), w).
Proof.
  intros H. unfold UserAuthenticationService.login_user, bind, lift. simpl.
  destruct H as [-> | ->]; simpl; [| rewrite orb_true_r]; reflexivity.
Qed.

Lemma login_user_unsupported (credentials : pyval) :
  is_auth credentials = false ->
  hasattr credentials "username" && hasattr credentials "password" = false ->
  is_dict credentials = false ->
  UserAuthenticationService.login_user credentials tr w =
  (Raise (TypeError "Unsupported credentials type for login_user"), w).
Proof.
  intros Ha Hu Hd. unfold UserAuthenticationService.login_user, bind, lift.
  rewrite Ha, Hu. destruct credentials; try reflexivity; discriminate Hd.
Qed.

(** Whatever [login_user] sends carries [auth] and no [json]. *)
Lemma login_user_sends_auth (credentials : pyval) (r : Request) :
  UserAuthenticationService.login_user credentials tr w
  = (answer tr w r, issued w r) ->
  is_Some (req_kwargs r !! "auth") /\ req_kwargs r !! "json" = None.
Proof.
  intros H.
  destruct (login_user_outcome credentials)
    as [[_ [a Ha]] | [_ (e & _ & Hr)]].
  - rewrite Ha in H. apply forwarded_inv in H. subst r.
    split; [eexists; apply lookup_singleton_eq | reflexivity].
  - rewrite Hr in H. destruct (rejected_not_forwarded _ _ _ _ H).
Qed.

(** No other method passes [auth] to the transport. *)
Lemma other_methods_send_no_auth (c : Call) (r : Request) :
  method_name c <> "login_user" ->
  run c tr w = (answer tr w r, issued w r) ->
  req_kwargs r !! "auth" = None.
Proof.
  intros Hc.
  destruct c; try (now contradiction Hc); clear Hc; unfold_methods;
    unfold bind, lift;
    try (destruct (_normalise_token_payload token);
         [intros H; now apply rejected_not_forwarded in H |]);
    first [rewrite get_run | rewrite post_run | rewrite put_run
          | rewrite delete_run];
    cbv zeta; intros H; apply forwarded_inv in H; subst r; reflexivity.
Qed.

End Login.

(** C6. login_user({"email": "a@b.com", "password": "p"}) issues exactly
    one request, POST /login, carrying basic-auth credentials with username
    "a@b.com" and password "p" and no JSON body; and a request of any
    facade method that carries transport-level [auth] comes from
    login_user, whose requests always carry [auth] and never [json]. *)
Theorem login_user_basic_auth (tr : Transport) (w : ServiceClient.world) :
  (let r := {| req_method := POST;
               req_path := "/login";
               req_kwargs :=
                 {[ "auth" := PyBasicAuth (PyStr "a@b.com") (PyStr "p") ]} |} in
   run (UserAuth_login_user
          (PyDict {[ "email" := PyStr "a@b.com"; "password" := PyStr "p" ]}))
       tr w
   = (answer tr w r, issued w r) /\
   req_kwargs r !! "json" = None) /\
  (forall (c : Call) (r : Request),
      run c tr w = (answer tr w r, issued w r) ->
      is_Some (req_kwargs r !! "auth") ->
      method_name c = "login_user" /\ service_of c = UserAuthentication) /\
  (forall (credentials : pyval) (r : Request),
      run (UserAuth_login_user credentials) tr w = (answer tr w r, issued w r) ->
      is_Some (req_kwargs r !! "auth") /\ req_kwargs r !! "json" = None).
Proof.
  split; [| split].
  - split; [| reflexivity].
    exact (login_user_dict_ok tr w
             {[ "email" := PyStr "a@b.com"; "password" := PyStr "p" ]}
             eq_refl eq_refl eq_refl eq_refl).
  - intros c r Hrun [a Ha].
    destruct (decide (method_name c = "login_user")) as [Hc | Hc].
    + split; [exact Hc |]. destruct c; try discriminate Hc. reflexivity.
    + rewrite (other_methods_send_no_auth tr w c r Hc Hrun) in Ha.
      discriminate Ha.
  - intros credentials r. apply login_user_sends_auth.
Qed.

Lemma login_user_basic_auth_witness :
  method_name (UserAuth_login_user (PyAuth "bearer")) = "login_user" /\
  service_of (UserAuth_login_user (PyAuth "bearer")) = UserAuthentication.
Proof.
  apply (proj1 (proj2 (login_user_basic_auth
                         always_ok
                         (ServiceClient.fresh (client_at "http://x"))))
           (UserAuth_login_user (PyAuth "bearer"))
           (login_request (PyAuth "bearer"))).
  - reflexivity.
  - eexists. reflexivity.
Defined.

(** C7. login_user raises the InvalidArgument error and leaves the state
    untouched, so nothing reaches the transport, for every credentials
    mapping without the key password, for every mapping with neither email
    nor username, more generally whenever the email/username or the
    password found is empty, and for every credentials value of an
    unsupported type. *)
Theorem login_user_rejects_malformed (tr : Transport) (w : ServiceClient.world) :
  InvalidArgument
    (ValueError "Credentials must include email/username and password") /\
  InvalidArgument (TypeError "Unsupported credentials type for login_user") /\
  (forall d : gmap string pyval,
      d !! "password" = None ->
      run (UserAuth_login_user (PyDict d)) tr w =
      (Raise (ValueError "Credentials must include email/username and password"),
       w)) /\
  (forall d : gmap string pyval,
      d !! "email" = None -> d !! "username" = None ->
      run (UserAuth_login_user (PyDict d)) tr w =
      (Raise (ValueError "Credentials must include email/username and password"),
       w)) /\
  (forall d : gmap string pyval,
      truthy (py_or (dict_get d "email") (dict_get d "username")) = false \/
      truthy (dict_get d "password") = false ->
      run (UserAuth_login_user (PyDict d)) tr w =
      (Raise (ValueError "Credentials must include email/username and password"),
       w)) /\
  (forall credentials : pyval,
      is_auth credentials = false ->
      hasattr credentials "username" && hasattr credentials "password" = false ->
      is_dict credentials = false ->
      run (UserAuth_login_user credentials) tr w =
      (Raise (TypeError "Unsupported credentials type for login_user"), w)).
Proof.
  split; [constructor |]. split; [constructor |].
  split; [| split; [| split]].
  - intros d Hp. apply login_user_dict_bad. right.
    unfold dict_get. now rewrite Hp.
  - intros d He Hu. apply login_user_dict_bad. left.
    unfold py_or, dict_get. now rewrite He, Hu.
  - intros d. apply login_user_dict_bad.
  - intros credentials. apply login_user_unsupported.
Qed.

Lemma login_user_rejects_malformed_witness :
  run (UserAuth_login_user (PyDict {[ "email" := PyStr "a@b.com" ]}))
    always_ok
    (ServiceClient.fresh (client_at "http://x"))
  = (Raise (ValueError "Credentials must include email/username and password"),
     ServiceClient.fresh (client_at "http://x")) /\
  run (UserAuth_login_user (PyInt 3))
    always_ok
    (ServiceClient.fresh (client_at "http://x"))
  = (Raise (TypeError "Unsupported credentials type for login_user"),
     ServiceClient.fresh (client_at "http://x")).
Proof.
  destruct (login_user_rejects_malformed
              always_ok
              (ServiceClient.fresh (client_at "http://x")))
    as (_ & _ & Hpw & _ & _ & Hty).
  split.
  - apply Hpw. reflexivity.
  - apply Hty; reflexivity.
Defined.

(** ** The health surface *)

Section Health.

Lemma health_check_run (c : Call) (tr : Transport) (w : ServiceClient.world) :
  method_name c = "health_check" ->
  run c tr w =
  let r := {| req_method := GET; req_path := "/health"; req_kwargs := ∅ |} in
  (answer tr w r, issued w r).
Proof.
  intros Hc. destruct c; try discriminate Hc; reflexivity.
Qed.

Lemma exposes_health_check (s : Service) :
  s <> ParkingSlot ->
  exists c, service_of c = s /\ method_name c = "health_check".
Proof.
  intros Hs. destruct s; try contradiction;
    [ exists Admin_health_check | exists Alert_health_check
    | exists Command_health_check | exists Onboarding_health_check
    | exists Telemetry_health_check | exists Health_health_check
    | exists Notification_health_check | exists UserAuth_health_check ];
    split; reflexivity.
Qed.

End Health.

(** C9. Every facade other than AdminManagement, UserAuthentication and
    ParkingSlot exposes health_check, and every health_check issues exactly
    one request, GET /health, against the base URL of the facade's client.
    (AdminManagement and UserAuthentication expose the same operation;
    ParkingSlot has none.) *)
Theorem health_check_uniform :
  (forall s : Service,
      s <> AdminManagement -> s <> UserAuthentication -> s <> ParkingSlot ->
      exists c, service_of c = s /\ method_name c = "health_check") /\
  (forall c : Call,
      method_name c = "health_check" ->
      forall (tr : Transport) (w : ServiceClient.world),
        let r := {| req_method := GET; req_path := "/health"; req_kwargs := ∅ |} in
        run c tr w = (answer tr w r, issued w r) /\
        sent_url {| via := ServiceClient._client (ServiceClient.self w);
                    request := r |}
        = ac_base_url (ServiceClient._client (ServiceClient.self w)) +:+ "/health") /\
  (exists c, service_of c = AdminManagement /\ method_name c = "health_check") /\
  (exists c, service_of c = UserAuthentication /\ method_name c = "health_check") /\
  (forall c : Call, service_of c = ParkingSlot -> method_name c <> "health_check").
Proof.
  split; [| split; [| split; [| split]]].
  - intros s _ _ Hs. now apply exposes_health_check.
  - intros c Hc tr w. split; [now apply health_check_run | reflexivity].
  - now apply exposes_health_check.
  - now apply exposes_health_check.
  - intros c Hs. destruct c; try discriminate Hs; discriminate.
Qed.

Lemma health_check_uniform_witness :
  exists c, service_of c = DeviceTelemetry /\ method_name c = "health_check".
Proof.
  apply (proj1 health_check_uniform DeviceTelemetry); discriminate.
Defined.

(** ** Concrete runs *)

Section Runs.

Let w0 : ServiceClient.world := ServiceClient.fresh (client_at "http://x").

Example rstrip_trailing : rstrip "http://x//" "/" = "http://x".
Proof. reflexivity. Qed.

Example rstrip_inner : rstrip "http://x/y" "/" = "http://x/y".
Proof. reflexivity. Qed.

Example init_strips :
  ServiceClient.init "http://x/" ServiceClient.default_timeout
  = Return (client_at "http://x").
Proof. reflexivity. Qed.

Example get_parking_slot_42 :
  map sent_url
    (ServiceClient.wire
       (snd (ParkingSlotService.get_parking_slot "42" always_ok w0)))
  = ["http://x/parking_slots/42"].
Proof. reflexivity. Qed.

Example get_my_devices_int :
  map (fun s => (verb (req_method (request s)), sent_url s))
    (ServiceClient.wire
       (snd (DeviceOnboardingService.get_my_devices (inl 7%Z) unreachable w0)))
  = [("GET", "http://x/get_my_devices/7")].
Proof. reflexivity. Qed.

Example get_latest_health_path :
  ServiceClient.log
    (snd (HealthMonitoringService.get_latest_health "dev1" always_ok w0))
  = ["GET http://x/dev1/latest"].
Proof. reflexivity. Qed.

Example list_parking_slots_no_status :
  map (fun s => req_kwargs (request s) !! "params")
    (ServiceClient.wire
       (snd (ParkingSlotService.list_parking_slots (Some "") always_ok w0)))
  = [Some PyNone].
Proof. reflexivity. Qed.

Example list_parking_slots_status :
  map (fun s => req_kwargs (request s) !! "params")
    (ServiceClient.wire
       (snd (ParkingSlotService.list_parking_slots (Some "free") always_ok w0)))
  = [Some (PyDict {[ "status" := PyStr "free" ]})].
Proof. reflexivity. Qed.

Example transport_error_propagates :
  fst (UserAuthenticationService.validate_token (PyStr "tok") unreachable w0)
  = Raise (TransportError "refused").
Proof. reflexivity. Qed.

(** [close] releases the connection and sends nothing. *)
Lemma close_sends_nothing (tr : Transport) (w : ServiceClient.world) :
  ServiceClient.wire (snd (ServiceClient.close tr w)) = ServiceClient.wire w /\
  is_closed (ServiceClient._client
               (ServiceClient.self (snd (ServiceClient.close tr w)))) = true.
Proof. split; reflexivity. Qed.

End Runs.


(** * Further properties of the code *)

(** ** Trailing slashes of the base URL *)

Section Rstrip.

Variable chars : string.

Lemma app_cons (c : Ascii.ascii) (s s' : string) :
  String c s +:+ s' = String c (s +:+ s').
Proof. reflexivity. Qed.

Lemma app_empty_l (s : string) : "" +:+ s = s.
Proof. reflexivity. Qed.

Lemma app_empty_r (s : string) : s +:+ "" = s.
Proof.
  induction s as [| c s IH]; [reflexivity |]. now rewrite app_cons, IH.
Qed.

Lemma app_assoc_str (a b c : string) : (a +:+ b) +:+ c = a +:+ b +:+ c.
Proof.
  induction a as [| x a IH]; [reflexivity |]. now rewrite !app_cons, IH.
Qed.

(** A string that is not empty has a last character. *)
Lemma string_snoc (s : string) :
  s <> "" -> exists p c, s = p +:+ String c "".
Proof.
  induction s as [| a s IH]; [congruence |]. intros _.
  destruct s as [| b s'].
  - exists "", a. reflexivity.
  - destruct IH as (p & c & Hp); [discriminate |].
    exists (String a p), c. now rewrite app_cons, <- Hp.
Qed.

Lemma all_chars_in_snoc (p : string) (c : Ascii.ascii) :
  all_chars_in (p +:+ String c "") chars = true -> char_in c chars = true.
Proof.
  induction p as [| a p IH]; [rewrite app_empty_l | rewrite app_cons];
    simpl; intros H.
  - now apply andb_true_iff in H as [H _].
  - apply andb_true_iff in H as [_ H]. now apply IH.
Qed.

(** What [rstrip] removes is a suffix made of characters of [chars]. *)
Lemma rstrip_decompose (s : string) :
  exists suffix,
    s = rstrip s chars +:+ suffix /\ all_chars_in suffix chars = true.
Proof.
  induction s as [| c s (suffix & Hs & Hall)]; simpl.
  - exists "". split; reflexivity.
  - destruct (rstrip s chars) as [| b r] eqn:Hr.
    + rewrite app_empty_l in Hs. subst suffix.
      destruct (char_in c chars) eqn:Hc.
      * exists (String c s). simpl. now rewrite Hc, Hall.
      * exists s. split; [reflexivity | exact Hall].
    + exists suffix. split; [| exact Hall]. now rewrite app_cons, <- Hs.
Qed.

(** What [rstrip] leaves does not end with a character of [chars]. *)
Lemma rstrip_last (s p : string) (c : Ascii.ascii) :
  rstrip s chars = p +:+ String c "" -> char_in c chars = false.
Proof.
  revert p. induction s as [| a s IH]; intros p; simpl.
  - destruct p; discriminate.
  - destruct (rstrip s chars) as [| b r] eqn:Hr.
    + destruct (char_in a chars) eqn:Ha.
      * destruct p; discriminate.
      * destruct p as [| x p]; [rewrite app_empty_l | rewrite app_cons].
        -- intros [= ->]. exact Ha.
        -- intros [= _ H]. destruct p; discriminate H.
    + destruct p as [| x p]; [rewrite app_empty_l | rewrite app_cons].
      * intros [= _ H].
      * intros [= _ H]. now apply (IH p).
Qed.

(** A string that does not end with a character of [chars] is kept. *)
Lemma rstrip_fixed (s : string) :
  (forall p c, s = p +:+ String c "" -> char_in c chars = false) ->
  rstrip s chars = s.
Proof.
  intros Hlast. destruct (rstrip_decompose s) as (suffix & Hs & Hall).
  destruct (decide (suffix = "")) as [-> | Hne].
  - rewrite app_empty_r in Hs. now symmetry.
  - destruct (string_snoc suffix Hne) as (q & c & ->).
    apply all_chars_in_snoc in Hall.
    rewrite <- app_assoc_str in Hs. apply Hlast in Hs. congruence.
Qed.

Lemma rstrip_idempotent (s : string) :
  rstrip (rstrip s chars) chars = rstrip s chars.
Proof. apply rstrip_fixed. intros p c H. now apply (rstrip_last s p c). Qed.

End Rstrip.

(** X1. For a non-empty base URL the client is built with the argument
    minus a suffix of slashes: the stored base URL does not end with a
    slash, the transport client gets the same URL and the same timeout, and
    the client starts open. *)
Theorem init_stored_base_url (b : string) (t : Q) (c : ServiceClient.t) :
  ServiceClient.init b t = Return c ->
  (exists slashes,
      b = ServiceClient.base_url c +:+ slashes /\
      all_chars_in slashes "/" = true) /\
  (forall p, ServiceClient.base_url c <> p +:+ "/") /\
  coherent c /\
  ServiceClient.timeout c = t /\
  is_closed (ServiceClient._client c) = false.
Proof.
  intros H. destruct (decide (b = "")) as [-> | Hb]; [discriminate H |].
  rewrite (init_nonempty b t Hb) in H. injection H as <-. simpl.
  split; [apply rstrip_decompose |].
  split; [| repeat split].
  intros p Hp. now apply rstrip_last in Hp.
Qed.

Lemma init_stored_base_url_witness :
  (exists slashes,
      "http://x:8000//" = ServiceClient.base_url (client_at "http://x:8000") +:+ slashes /\
      all_chars_in slashes "/" = true) /\
  (forall p, ServiceClient.base_url (client_at "http://x:8000") <> p +:+ "/") /\
  coherent (client_at "http://x:8000") /\
  ServiceClient.timeout (client_at "http://x:8000") = 30%Q /\
  is_closed (ServiceClient._client (client_at "http://x:8000")) = false.
Proof.
  apply (init_stored_base_url "http://x:8000//" 30%Q). reflexivity.
Defined.

(** X2. A base URL that does not end with a slash is stored as it is, and
    building a client again from a stored base URL gives the same client:
    stripping is done once and for all. *)
Theorem init_round_trip (b : string) (t : Q) (c : ServiceClient.t) :
  ServiceClient.init b t = Return c ->
  ((forall p, b <> p +:+ "/") -> ServiceClient.base_url c = b) /\
  (ServiceClient.base_url c <> "" ->
   ServiceClient.init (ServiceClient.base_url c) t = Return c).
Proof.
  intros H. destruct (decide (b = "")) as [-> | Hb]; [discriminate H |].
  rewrite (init_nonempty b t Hb) in H. injection H as <-. simpl. split.
  - intros Hlast. apply rstrip_fixed. intros p c Hp.
    simpl. rewrite orb_false_r.
    destruct (Ascii.eqb c _) eqn:Hc; [| reflexivity].
    apply Ascii.eqb_eq in Hc as ->. now apply Hlast in Hp.
  - intros Hne. rewrite (init_nonempty _ t Hne).
    now rewrite rstrip_idempotent.
Qed.

Lemma init_round_trip_witness :
  ServiceClient.base_url (client_at "http://x") = "http://x" /\
  ServiceClient.init (ServiceClient.base_url (client_at "http://x")) 30
  = Return (client_at "http://x").
Proof.
  destruct (init_round_trip "http://x" 30%Q (client_at "http://x") eq_refl)
    as [Hkeep Hagain].
  split.
  - apply Hkeep. intros p Hp.
    assert (H : rstrip "http://x" "/" = p +:+ "/") by exact Hp.
    apply rstrip_last in H. discriminate H.
  - apply Hagain. discriminate.
Defined.

(** ** The verbs of the client *)

(** X3. The leading slash of an endpoint is optional: a verb called with an
    endpoint that lacks it behaves exactly as with the slash put in front,
    for the same keyword arguments, transport and state. *)
Theorem verbs_leading_slash_optional (endpoint : string)
    (kwargs : gmap string pyval) (tr : Transport) (w : ServiceClient.world) :
  startswith endpoint "/" = false ->
  ServiceClient.get endpoint kwargs tr w
  = ServiceClient.get ("/" +:+ endpoint) kwargs tr w /\
  ServiceClient.post endpoint kwargs tr w
  = ServiceClient.post ("/" +:+ endpoint) kwargs tr w /\
  ServiceClient.put endpoint kwargs tr w
  = ServiceClient.put ("/" +:+ endpoint) kwargs tr w /\
  ServiceClient.delete endpoint kwargs tr w
  = ServiceClient.delete ("/" +:+ endpoint) kwargs tr w.
Proof.
  intros H.
  assert (Hn : ServiceClient._normalise ("/" +:+ endpoint)
               = ServiceClient._normalise endpoint).
  { rewrite (_normalise_fixed _ (startswith_slash_cons endpoint)).
    unfold ServiceClient._normalise. now rewrite H. }
  rewrite !get_run, !post_run, !put_run, !delete_run. cbv zeta.
  now rewrite Hn.
Qed.

Lemma verbs_leading_slash_optional_witness :
  ServiceClient.get "health" ∅ always_ok (ServiceClient.fresh (client_at "http://x"))
  = ServiceClient.get "/health" ∅ always_ok (ServiceClient.fresh (client_at "http://x")).
Proof.
  apply (verbs_leading_slash_optional "health" ∅ always_ok
           (ServiceClient.fresh (client_at "http://x"))).
  reflexivity.
Defined.

Section ClientSessions.

Variable tr : Transport.

Lemma step_self (w : ServiceClient.world) (o : Op) :
  ServiceClient.self (step tr w o)
  = if is_verb o then ServiceClient.self w else closed (ServiceClient.self w).
Proof. destruct o; reflexivity. Qed.

Lemma step_wire (w : ServiceClient.world) (o : Op) :
  length (ServiceClient.wire (step tr w o))
  = length (ServiceClient.wire w) + (if is_verb o then 1 else 0).
Proof.
  destruct o; simpl; rewrite ?length_app; simpl; lia.
Qed.

Lemma step_coherent (w : ServiceClient.world) (o : Op) :
  coherent (ServiceClient.self w) -> coherent (ServiceClient.self (step tr w o)).
Proof. rewrite step_self. destruct (is_verb o); intros [? ?]; now split. Qed.

Lemma step_log (w : ServiceClient.world) (o : Op) :
  coherent (ServiceClient.self w) ->
  ServiceClient.log w = map describe (ServiceClient.wire w) ->
  ServiceClient.log (step tr w o)
  = map describe (ServiceClient.wire (step tr w o)).
Proof.
  intros [Hu _] Hlog.
  destruct o; simpl; rewrite ?map_app, ?Hlog; simpl;
    unfold describe, sent_url; simpl; now rewrite ?Hu.
Qed.

End ClientSessions.

(** X4. Whatever calls are made on a client, in any order and whatever the
    transport answers, the base URL and the timeout of the client and of
    its transport client are the ones before the calls, so that the two
    keep agreeing, and the client is closed afterwards exactly when it was
    closed before or [close] was among the calls: nothing reopens it. *)
Theorem client_session_invariants (tr : Transport) (ops : list Op)
    (w : ServiceClient.world) :
  coherent (ServiceClient.self w) ->
  coherent (ServiceClient.self (steps tr w ops)) /\
  ServiceClient.base_url (ServiceClient.self (steps tr w ops))
  = ServiceClient.base_url (ServiceClient.self w) /\
  ServiceClient.timeout (ServiceClient.self (steps tr w ops))
  = ServiceClient.timeout (ServiceClient.self w) /\
  ac_base_url (ServiceClient._client (ServiceClient.self (steps tr w ops)))
  = ac_base_url (ServiceClient._client (ServiceClient.self w)) /\
  ac_timeout (ServiceClient._client (ServiceClient.self (steps tr w ops)))
  = ac_timeout (ServiceClient._client (ServiceClient.self w)) /\
  is_closed (ServiceClient._client (ServiceClient.self (steps tr w ops)))
  = is_closed (ServiceClient._client (ServiceClient.self w))
    || negb (forallb is_verb ops).
Proof.
  unfold steps. revert w. induction ops as [| o ops IH]; intros w Hw; simpl.
  - split; [exact Hw |]. repeat (split; [reflexivity |]).
    now rewrite orb_false_r.
  - destruct (IH (step tr w o) (step_coherent tr w o Hw))
      as (Hc & Hb & Ht & Hab & Hat & Hz).
    split; [exact Hc |]. rewrite Hb, Ht, Hab, Hat, Hz, step_self.
    destruct (is_verb o); simpl; repeat (split; [reflexivity |]).
    + reflexivity.
    + now rewrite orb_true_r.
Qed.

Lemma client_session_invariants_witness :
  ServiceClient.base_url
    (ServiceClient.self
       (steps unreachable (ServiceClient.fresh (client_at "http://x"))
          [OpGet "health" ∅; OpClose; OpPost "login" ∅]))
  = "http://x" /\
  ac_base_url
    (ServiceClient._client
       (ServiceClient.self
          (steps unreachable (ServiceClient.fresh (client_at "http://x"))
             [OpGet "health" ∅; OpClose; OpPost "login" ∅])))
  = "http://x" /\
  is_closed
    (ServiceClient._client
       (ServiceClient.self
          (steps unreachable (ServiceClient.fresh (client_at "http://x"))
             [OpGet "health" ∅; OpClose; OpPost "login" ∅])))
  = true.
Proof.
  destruct (client_session_invariants unreachable
              [OpGet "health" ∅; OpClose; OpPost "login" ∅]
              (ServiceClient.fresh (client_at "http://x")))
    as (_ & Hb & _ & Hab & _ & Hz); [split; reflexivity |].
  split; [exact Hb |]. split; [exact Hab | exact Hz].
Defined.

(** X5. Each verb call hands exactly one request to the transport and
    [close] hands none, whatever the transport answers: after a sequence
    of calls the wire has grown by the number of verb calls, with no retry
    and no request dropped after a failure. *)
Theorem client_session_requests (tr : Transport) (ops : list Op)
    (w : ServiceClient.world) :
  length (ServiceClient.wire (steps tr w ops))
  = length (ServiceClient.wire w) + length (List.filter is_verb ops) /\
  exists added,
    ServiceClient.wire (steps tr w ops) = (ServiceClient.wire w ++ added)%list.
Proof.
  unfold steps. revert w. induction ops as [| o ops IH]; intros w; simpl.
  - split; [lia |]. exists []. now rewrite app_nil_r.
  - destruct (IH (step tr w o)) as (Hlen & added & Hadd).
    split.
    + rewrite Hlen, step_wire. destruct o; simpl; lia.
    + assert (exists one, ServiceClient.wire (step tr w o)
                          = (ServiceClient.wire w ++ one)%list) as [one Hone].
      { destruct o; simpl;
          [eexists; reflexivity .. | exists []; now rewrite app_nil_r]. }
      exists (one ++ added)%list. now rewrite Hadd, Hone, <- app_assoc.
Qed.

(** X6. The log mirrors the wire: when client and transport client agree
    on the base URL and every earlier request was logged with its verb and
    full URL, the same holds after any sequence of calls. In particular a
    freshly built client logs exactly one line, verb and base URL followed
    by the path, for each request it sends. *)
Theorem client_session_log (tr : Transport) (ops : list Op)
    (w : ServiceClient.world) :
  coherent (ServiceClient.self w) ->
  ServiceClient.log w = map describe (ServiceClient.wire w) ->
  ServiceClient.log (steps tr w ops)
  = map describe (ServiceClient.wire (steps tr w ops)).
Proof.
  unfold steps. revert w. induction ops as [| o ops IH]; intros w Hw Hlog; simpl.
  - exact Hlog.
  - apply IH; [now apply step_coherent | now apply step_log].
Qed.

Lemma client_session_log_witness :
  ServiceClient.log
    (steps unreachable (ServiceClient.fresh (client_at "http://x"))
       [OpGet "health" ∅; OpClose; OpDelete "/parking_slots/42" ∅])
  = ["GET http://x/health"; "DELETE http://x/parking_slots/42"].
Proof.
  rewrite (client_session_log unreachable
             [OpGet "health" ∅; OpClose; OpDelete "/parking_slots/42" ∅]
             (ServiceClient.fresh (client_at "http://x"))).
  - reflexivity.
  - split; reflexivity.
  - reflexivity.
Defined.

(** ** Where a facade takes its base URL from *)

Section UrlResolution.

Lemma env_var_inj (s s' : Service) : env_var s = env_var s' -> s = s'.
Proof. destruct s, s'; intros H; try reflexivity; discriminate H. Qed.

Lemma str_or_explicit (b fallback : string) :
  b <> "" -> str_or (Some b) fallback = b.
Proof. intros Hb. unfold str_or. now rewrite (truthy_str_nonempty b Hb). Qed.

Lemma str_or_falsy (base_url : option string) (fallback : string) :
  base_url = None \/ base_url = Some "" -> str_or base_url fallback = fallback.
Proof. intros [-> | ->]; reflexivity. Qed.

End UrlResolution.

(** X7. Every facade resolves its base URL in the same order: a non-empty
    explicit argument wins whatever the environment holds; without one
    (none, or the empty string) the facade's environment variable is used
    when it is set; and the hardcoded default only when it is not. The
    client is then built from that URL as by ServiceClient itself. *)
Theorem facade_url_precedence (s : Service) (t : Q) (environ : gmap string string) :
  (forall b : string,
      b <> "" -> construct s (Some b) t environ = ServiceClient.init b t) /\
  (forall (base_url : option string) (v : string),
      base_url = None \/ base_url = Some "" ->
      environ !! env_var s = Some v ->
      construct s base_url t environ = ServiceClient.init v t) /\
  (forall base_url : option string,
      base_url = None \/ base_url = Some "" ->
      environ !! env_var s = None ->
      construct s base_url t environ = ServiceClient.init (default_url s) t).
Proof.
  split; [| split].
  - intros b Hb. now rewrite construct_unfold, str_or_explicit.
  - intros base_url v Hb Hv.
    rewrite construct_unfold, (str_or_falsy _ _ Hb). unfold getenv.
    now rewrite Hv.
  - intros base_url Hb Hv.
    rewrite construct_unfold, (str_or_falsy _ _ Hb). unfold getenv.
    now rewrite Hv.
Qed.

Lemma facade_url_precedence_witness :
  construct DeviceCommand (Some "http://x/") 30
    {[ "DEVICE_COMMAND_SERVICE_URL" := "http://y" ]}
  = Return (client_at "http://x") /\
  construct DeviceCommand (Some "") 30
    {[ "DEVICE_COMMAND_SERVICE_URL" := "http://y" ]}
  = Return (client_at "http://y") /\
  construct DeviceCommand None 30 ∅
  = Return (client_at "http://device-command-service:8000").
Proof.
  destruct (facade_url_precedence DeviceCommand 30%Q
              {[ "DEVICE_COMMAND_SERVICE_URL" := "http://y" ]})
    as (Hexplicit & Henv & _).
  destruct (facade_url_precedence DeviceCommand 30%Q ∅) as (_ & _ & Hdefault).
  split; [| split].
  - rewrite Hexplicit; [reflexivity | discriminate].
  - rewrite (Henv (Some "") "http://y"); [reflexivity | now right | reflexivity].
  - rewrite (Hdefault None); [reflexivity | now left | reflexivity].
Defined.

(** X8. The facades read distinct environment variables: setting or
    changing the variable of one facade never changes how another one is
    built. *)
Theorem facade_environment_isolation (s s' : Service)
    (base_url : option string) (t : Q) (environ : gmap string string)
    (v : string) :
  s <> s' ->
  construct s base_url t (<[ env_var s' := v ]> environ)
  = construct s base_url t environ.
Proof.
  intros Hs. rewrite !construct_unfold. unfold getenv.
  rewrite lookup_insert_ne; [reflexivity |].
  intros H. apply env_var_inj in H. congruence.
Qed.

Lemma facade_environment_isolation_witness :
  construct ParkingSlot None 30 {[ "USER_AUTH_SERVICE_URL" := "" ]}
  = construct ParkingSlot None 30 ∅.
Proof.
  apply (facade_environment_isolation ParkingSlot UserAuthentication None
           30%Q ∅ "").
  discriminate.
Defined.

(** ** More on token payloads *)

(** X9. What token normalisation returns is always a mapping, and
    normalising it again returns it unchanged: a payload that went through
    one facade can be handed to the next as a token. *)
Theorem token_payload_idempotent (token payload : pyval) :
  _normalise_token_payload token = Return payload ->
  is_dict payload = true /\
  _normalise_token_payload payload = Return payload.
Proof.
  destruct token; simpl; try discriminate.
  - intros [= <-]. split; [reflexivity |].
    apply _normalise_token_payload_with, lookup_singleton_eq.
  - destruct (d !! "token") as [v |] eqn:Hd; intros [= <-].
    + split; [reflexivity |].
      apply _normalise_token_payload_with, lookup_singleton_eq.
    + split; [reflexivity |]. now apply _normalise_token_payload_without.
Qed.

Lemma token_payload_idempotent_witness :
  is_dict (PyDict {[ "token" := PyStr "abc" ]}) = true /\
  _normalise_token_payload (PyDict {[ "token" := PyStr "abc" ]})
  = Return (PyDict {[ "token" := PyStr "abc" ]}).
Proof.
  apply (token_payload_idempotent
           (PyDict {[ "token" := PyStr "abc"; "user" := PyStr "bob" ]})).
  reflexivity.
Defined.

(** X10. Token normalisation rejects a value exactly when it is neither a
    string nor a dictionary. Strings and dictionaries are never rejected,
    whatever they hold: the empty string becomes {token: ""}, a dictionary
    without the key token goes through without one, and the value under
    token is not looked at. *)
Theorem token_payload_accepts (token : pyval) :
  ((exists e, _normalise_token_payload token = Raise e) <->
   is_str token || is_dict token = false) /\
  (is_str token || is_dict token = true ->
   exists d,
     _normalise_token_payload token = Return (PyDict d) /\
     (d !! "token" = None -> token = PyDict d)).
Proof.
  split.
  - split.
    + intros [e He]. apply _normalise_token_payload_raises in He as (_ & -> & ->).
      reflexivity.
    + intros H. apply orb_false_iff in H as [Hs Hd]. eexists.
      apply (_normalise_token_payload_other token Hs Hd).
  - destruct token; simpl; try discriminate; intros _.
    + eexists. split; [reflexivity |].
      rewrite lookup_singleton_eq. discriminate.
    + destruct (d !! "token") as [v |] eqn:Hd.
      * eexists. split; [reflexivity |].
        rewrite lookup_singleton_eq. discriminate.
      * exists d. split; reflexivity.
Qed.

Lemma token_payload_accepts_witness :
  exists d,
    _normalise_token_payload (PyDict ∅) = Return (PyDict d) /\
    (d !! "token" = None -> PyDict ∅ = PyDict d).
Proof.
  apply (proj2 (token_payload_accepts (PyDict ∅))). reflexivity.
Defined.

(** X11. A method that takes a token depends on it only through its
    normalised payload: two tokens with the same normalisation give the
    same request and the same outcome. A bare string and a dictionary
    holding it under token are interchangeable, and the other keys of a
    token dictionary never reach the wire. *)
Theorem token_only_through_payload (c : Call) (token token' : pyval)
    (tr : Transport) (w : ServiceClient.world) :
  _normalise_token_payload token = _normalise_token_payload token' ->
  run (with_token c token) tr w = run (with_token c token') tr w.
Proof.
  intros H.
  destruct c; simpl with_token; try reflexivity;
    unfold_methods; unfold bind, lift; now rewrite H.
Qed.

Lemma token_only_through_payload_witness :
  run (Parking_release_parking_slot "42" (PyStr "abc")) always_ok
    (ServiceClient.fresh (client_at "http://x"))
  = run (Parking_release_parking_slot "42"
           (PyDict {[ "token" := PyStr "abc"; "user" := PyStr "bob" ]}))
      always_ok (ServiceClient.fresh (client_at "http://x")).
Proof.
  apply (token_only_through_payload (Parking_release_parking_slot "42" PyNone)
           (PyStr "abc")
           (PyDict {[ "token" := PyStr "abc"; "user" := PyStr "bob" ]})).
  reflexivity.
Defined.

(** ** More on login credentials *)

Section Credentials.

Variable tr : Transport.
Variable w : ServiceClient.world.

(** For a dictionary only the resolved user name and the password count. *)
Lemma login_user_dict_ext (d d' : gmap string pyval) :
  py_or (dict_get d "email") (dict_get d "username")
  = py_or (dict_get d' "email") (dict_get d' "username") ->
  dict_get d "password" = dict_get d' "password" ->
  UserAuthenticationService.login_user (PyDict d) tr w
  = UserAuthenticationService.login_user (PyDict d') tr w.
Proof.
  intros Hu Hp. unfold UserAuthenticationService.login_user.
  cbn [is_auth hasattr andb]. now rewrite Hu, Hp.
Qed.

Lemma dict_get_insert_ne (d : gmap string pyval) (k k' : string) (v : pyval) :
  k <> k' -> dict_get (<[ k := v ]> d) k' = dict_get d k'.
Proof. intros H. unfold dict_get. now rewrite lookup_insert_ne. Qed.

(** A dictionary that passed the method's checks goes to httpx.BasicAuth. *)
Lemma login_user_dict_BasicAuth (d : gmap string pyval) :
  truthy (py_or (dict_get d "email") (dict_get d "username")) = true ->
  truthy (dict_get d "password") = true ->
  UserAuthenticationService.login_user (PyDict d) tr w =
  match httpx_BasicAuth (py_or (dict_get d "email") (dict_get d "username"))
                        (dict_get d "password") with
  | Return auth_obj =>
      (answer tr w (login_request auth_obj), issued w (login_request auth_obj))
  | Raise e => (Raise e, w)
  end.
Proof.
  intros He Hp. unfold UserAuthenticationService.login_user, bind, lift.
  cbn [is_auth hasattr andb]. rewrite He, Hp. cbn [negb orb].
  destruct (httpx_BasicAuth _ _); [reflexivity | apply post_run].
Qed.

Lemma login_user_auth (credentials : pyval) :
  is_auth credentials = true ->
  UserAuthenticationService.login_user credentials tr w
  = (answer tr w (login_request credentials),
     issued w (login_request credentials)).
Proof.
  intros H. unfold UserAuthenticationService.login_user, bind, lift.
  rewrite H. apply post_run.
Qed.

(** An object with both attributes goes to httpx.BasicAuth as it is. *)
Lemma login_user_object (attrs : gmap string pyval) (u p : pyval) :
  attrs !! "username" = Some u -> attrs !! "password" = Some p ->
  UserAuthenticationService.login_user (PyObject attrs) tr w =
  match httpx_BasicAuth u p with
  | Return auth_obj =>
      (answer tr w (login_request auth_obj), issued w (login_request auth_obj))
  | Raise e => (Raise e, w)
  end.
Proof.
  intros Hu Hp. unfold UserAuthenticationService.login_user, bind, lift.
  cbn [is_auth hasattr getattr]. rewrite Hu, Hp.
  rewrite !bool_decide_eq_true_2 by (eexists; reflexivity).
  cbn [andb default from_option id].
  destruct (httpx_BasicAuth u p); [reflexivity | apply post_run].
Qed.

Lemma httpx_BasicAuth_str (u p : pyval) :
  is_str u = true -> is_str p = true ->
  httpx_BasicAuth u p = Return (PyBasicAuth u p).
Proof. intros Hu Hp. unfold httpx_BasicAuth. now rewrite Hu, Hp. Qed.

Lemma httpx_BasicAuth_other (u p : pyval) :
  is_str u && is_str p = false ->
  httpx_BasicAuth u p = Raise BasicAuth_TypeError.
Proof. intros H. unfold httpx_BasicAuth. now rewrite H. Qed.

End Credentials.

(** X12. For credentials given as a dictionary only three keys count. Any
    other key is ignored, and a truthy email makes username irrelevant.
    When email is missing or empty and username and password are truthy,
    the username takes its place: if both are strings they are sent as
    basic auth, and if not, httpx.BasicAuth raises its TypeError and
    nothing is sent. *)
Theorem login_user_dict_keys (d : gmap string pyval) (tr : Transport)
    (w : ServiceClient.world) :
  (forall (k : string) (v : pyval),
      k <> "email" -> k <> "username" -> k <> "password" ->
      run (UserAuth_login_user (PyDict (<[ k := v ]> d))) tr w
      = run (UserAuth_login_user (PyDict d)) tr w) /\
  (truthy (dict_get d "email") = true ->
   forall u : pyval,
     run (UserAuth_login_user (PyDict (<[ "username" := u ]> d))) tr w
     = run (UserAuth_login_user (PyDict d)) tr w) /\
  (truthy (dict_get d "email") = false ->
   truthy (dict_get d "username") = true ->
   truthy (dict_get d "password") = true ->
   (is_str (dict_get d "username") = true ->
    is_str (dict_get d "password") = true ->
    let r := {| req_method := POST;
                req_path := "/login";
                req_kwargs :=
                  {[ "auth" := PyBasicAuth (dict_get d "username")
                                           (dict_get d "password") ]} |} in
    run (UserAuth_login_user (PyDict d)) tr w = (answer tr w r, issued w r)) /\
   (is_str (dict_get d "username") && is_str (dict_get d "password") = false ->
    run (UserAuth_login_user (PyDict d)) tr w = (Raise BasicAuth_TypeError, w))).
Proof.
  split; [| split].
  - intros k v He Hu Hp. apply login_user_dict_ext.
    + now rewrite !dict_get_insert_ne.
    + now rewrite dict_get_insert_ne.
  - intros He u. apply login_user_dict_ext.
    + rewrite dict_get_insert_ne by discriminate.
      unfold py_or. now rewrite He.
    + now rewrite dict_get_insert_ne by discriminate.
  - intros He Hu Hp. simpl run.
    assert (Hor : py_or (dict_get d "email") (dict_get d "username")
                  = dict_get d "username") by (unfold py_or; now rewrite He).
    rewrite login_user_dict_BasicAuth by (rewrite ?Hor; assumption).
    rewrite Hor. split.
    + intros Hsu Hsp r. subst r. now rewrite httpx_BasicAuth_str.
    + intros Hs. now rewrite httpx_BasicAuth_other.
Qed.

Lemma login_user_dict_keys_witness :
  run (UserAuth_login_user
         (PyDict {[ "email" := PyStr ""; "username" := PyStr "bob";
                    "password" := PyStr "p" ]}))
    always_ok (ServiceClient.fresh (client_at "http://x"))
  = (answer always_ok (ServiceClient.fresh (client_at "http://x"))
       (login_request (PyBasicAuth (PyStr "bob") (PyStr "p"))),
     issued (ServiceClient.fresh (client_at "http://x"))
       (login_request (PyBasicAuth (PyStr "bob") (PyStr "p")))) /\
  run (UserAuth_login_user
         (PyDict {[ "username" := PyInt 5; "password" := PyInt 7 ]}))
    always_ok (ServiceClient.fresh (client_at "http://x"))
  = (Raise BasicAuth_TypeError, ServiceClient.fresh (client_at "http://x")).
Proof.
  split.
  - exact (proj1 (proj2 (proj2 (login_user_dict_keys
                           {[ "email" := PyStr ""; "username" := PyStr "bob";
                              "password" := PyStr "p" ]}
                           always_ok
                           (ServiceClient.fresh (client_at "http://x"))))
                    eq_refl eq_refl eq_refl) eq_refl eq_refl).
  - exact (proj2 (proj2 (proj2 (login_user_dict_keys
                           {[ "username" := PyInt 5; "password" := PyInt 7 ]}
                           always_ok
                           (ServiceClient.fresh (client_at "http://x"))))
                    eq_refl eq_refl eq_refl) eq_refl).
Defined.

(** X13. login_user applies none of its own checks to credentials that
    are not a dictionary. An httpx.Auth instance is passed to the
    transport as it is. An object with the attributes username and
    password is handed to httpx.BasicAuth whatever their values: strings,
    empty ones too, are sent as basic auth (the same values in a
    dictionary are rejected), and anything else raises the TypeError of
    httpx.BasicAuth with nothing sent. *)
Theorem login_user_unvalidated (tr : Transport) (w : ServiceClient.world) :
  (forall credentials : pyval,
      is_auth credentials = true ->
      let r := {| req_method := POST; req_path := "/login";
                  req_kwargs := {[ "auth" := credentials ]} |} in
      run (UserAuth_login_user credentials) tr w = (answer tr w r, issued w r)) /\
  (forall (attrs : gmap string pyval) (u p : pyval),
      attrs !! "username" = Some u -> attrs !! "password" = Some p ->
      (is_str u = true -> is_str p = true ->
       let r := {| req_method := POST; req_path := "/login";
                   req_kwargs := {[ "auth" := PyBasicAuth u p ]} |} in
       run (UserAuth_login_user (PyObject attrs)) tr w
       = (answer tr w r, issued w r)) /\
      (is_str u && is_str p = false ->
       run (UserAuth_login_user (PyObject attrs)) tr w
       = (Raise BasicAuth_TypeError, w))).
Proof.
  split.
  - intros credentials H r. now apply login_user_auth.
  - intros attrs u p Hu Hp. simpl run.
    rewrite (login_user_object tr w attrs u p Hu Hp). split.
    + intros Hsu Hsp r. subst r. now rewrite httpx_BasicAuth_str.
    + intros Hs. now rewrite httpx_BasicAuth_other.
Qed.

Lemma login_user_unvalidated_witness :
  run (UserAuth_login_user
         (PyObject {[ "username" := PyStr ""; "password" := PyStr "" ]}))
    always_ok (ServiceClient.fresh (client_at "http://x"))
  = (answer always_ok (ServiceClient.fresh (client_at "http://x"))
       (login_request (PyBasicAuth (PyStr "") (PyStr ""))),
     issued (ServiceClient.fresh (client_at "http://x"))
       (login_request (PyBasicAuth (PyStr "") (PyStr "")))) /\
  rejected (ServiceClient.fresh (client_at "http://x"))
    (run (UserAuth_login_user
            (PyDict {[ "username" := PyStr ""; "password" := PyStr "" ]}))
       always_ok (ServiceClient.fresh (client_at "http://x"))) /\
  run (UserAuth_login_user
         (PyObject {[ "username" := PyStr ""; "password" := PyNone ]}))
    always_ok (ServiceClient.fresh (client_at "http://x"))
  = (Raise BasicAuth_TypeError, ServiceClient.fresh (client_at "http://x")).
Proof.
  split; [| split].
  - exact (proj1 (proj2 (login_user_unvalidated always_ok
                           (ServiceClient.fresh (client_at "http://x")))
                    {[ "username" := PyStr ""; "password" := PyStr "" ]}
                    (PyStr "") (PyStr "") eq_refl eq_refl)
             eq_refl eq_refl).
  - eexists. split; [apply malformed_credentials | reflexivity].
  - exact (proj2 (proj2 (login_user_unvalidated always_ok
                           (ServiceClient.fresh (client_at "http://x")))
                    {[ "username" := PyStr ""; "password" := PyNone ]}
                    (PyStr "") PyNone eq_refl eq_refl)
             eq_refl).
Defined.

(** ** Listing parking slots *)

(** X14. list_parking_slots always issues GET /parking_slots. A non-empty
    status is sent as the query parameter status; an empty status is
    treated exactly as no status: no filter is sent. *)
Theorem list_parking_slots_filter (tr : Transport) (w : ServiceClient.world) :
  (forall s : string,
      s <> "" ->
      let r := {| req_method := GET; req_path := "/parking_slots";
                  req_kwargs :=
                    {[ "params" := PyDict {[ "status" := PyStr s ]} ]} |} in
      ParkingSlotService.list_parking_slots (Some s) tr w
      = (answer tr w r, issued w r)) /\
  (let r := {| req_method := GET; req_path := "/parking_slots";
               req_kwargs := {[ "params" := PyNone ]} |} in
   ParkingSlotService.list_parking_slots None tr w = (answer tr w r, issued w r)) /\
  ParkingSlotService.list_parking_slots (Some "") tr w
  = ParkingSlotService.list_parking_slots None tr w.
Proof.
  split; [| split; reflexivity].
  intros s Hs r. subst r. unfold ParkingSlotService.list_parking_slots.
  unfold status_params. rewrite (truthy_str_nonempty s Hs). apply get_run.
Qed.

Lemma list_parking_slots_filter_witness :
  map (fun s => req_kwargs (request s) !! "params")
    (ServiceClient.wire
       (snd (ParkingSlotService.list_parking_slots (Some "free") unreachable
               (ServiceClient.fresh (client_at "http://x")))))
  = [Some (PyDict {[ "status" := PyStr "free" ]})].
Proof.
  rewrite (proj1 (list_parking_slots_filter unreachable
                    (ServiceClient.fresh (client_at "http://x"))) "free");
    [reflexivity | discriminate].
Defined.

(** ** What a call sends is fixed by its arguments *)

Section Shape.

Lemma token_shape (token : pyval) (k : pyval -> Coroutine) :
  (forall payload, exists r, forall tr w,
        k payload tr w = (answer tr w r, issued w r)) ->
  (is_str token || is_dict token = true /\
   exists r, forall tr w,
     bind (lift (_normalise_token_payload token)) k tr w
     = (answer tr w r, issued w r)) \/
  (is_str token || is_dict token = false /\
   exists e, (InvalidArgument e \/ e = BasicAuth_TypeError) /\ forall tr w,
     bind (lift (_normalise_token_payload token)) k tr w = (Raise e, w)).
Proof.
  intros Hk. unfold bind, lift.
  destruct (_normalise_token_payload token) as [e | payload] eqn:E.
  - right. apply _normalise_token_payload_raises in E as (-> & -> & ->).
    split; [reflexivity |]. eexists.
    split; [left; constructor | reflexivity].
  - left. split; [| apply Hk].
    destruct token; try discriminate E; reflexivity.
Qed.

Lemma login_shape (credentials : pyval) :
  (credentials_ok credentials = true /\
   exists r, sends_request (UserAuth_login_user credentials) r) \/
  (credentials_ok credentials = false /\
   exists e, (InvalidArgument e \/ e = BasicAuth_TypeError) /\
             raises (UserAuth_login_user credentials) e).
Proof.
  destruct (login_user_outcome credentials)
    as [[Hok [a Ha]] | [Hok (e & He & Hr)]].
  - left. split; [exact Hok |]. exists (login_request a). exact Ha.
  - right. split; [exact Hok |]. exists e. split; [exact He | exact Hr].
Qed.

Lemma run_shape (c : Call) :
  (well_formed c = true /\ exists r, sends_request c r) \/
  (well_formed c = false /\
   exists e, (InvalidArgument e \/ e = BasicAuth_TypeError) /\ raises c e).
Proof.
  destruct c; try apply login_shape;
    unfold sends_request, raises, well_formed; cbn [token_of];
    unfold_methods;
    try (apply token_shape; intros payload);
    try (left; split; [reflexivity |]);
    eexists; intros; one_request.
Qed.

End Shape.

(** X15. What a facade call does is fixed by its arguments alone. Either
    its arguments are well formed (a token that is a string or a
    dictionary; credentials that pass login_user's checks and that
    httpx.BasicAuth takes), and there is one request, the same for every
    transport and every state (whatever was sent before, whether or not
    the client was closed), that the call hands over, returning the
    transport's answer. Or they are not, and the call raises the same
    error everywhere, an InvalidArgument error or the TypeError of
    httpx.BasicAuth, and changes nothing. *)
Theorem call_fixed_by_arguments (c : Call) :
  (well_formed c = true /\ exists r, sends_request c r) \/
  (well_formed c = false /\
   exists e, (InvalidArgument e \/ e = BasicAuth_TypeError) /\ raises c e).
Proof. exact (run_shape c). Qed.

Section FacadeSessions.

Lemma run_state (c : Call) (tr : Transport) (w : ServiceClient.world) :
  exists added,
    snd (run c tr w)
    = {| ServiceClient.self := ServiceClient.self w;
         ServiceClient.wire := ServiceClient.wire w ++ added;
         ServiceClient.log := ServiceClient.log w ++ map (fun r =>
            verb (req_method r) +:+ " "
            +:+ ServiceClient.base_url (ServiceClient.self w) +:+ req_path r)
            (map request added) |} /\
    length added = (if well_formed c then 1 else 0) /\
    forall tr', snd (run c tr' w) = snd (run c tr w).
Proof.
  destruct (run_shape c) as [[-> [r Hr]] | [-> (e & _ & He)]].
  - exists [{| via := ServiceClient._client (ServiceClient.self w);
               request := r |}].
    rewrite Hr. split; [reflexivity |]. split; [reflexivity |].
    intros tr'. now rewrite !Hr.
  - exists []. rewrite He. simpl. rewrite !app_nil_r.
    split; [now destruct w |]. split; [reflexivity |].
    intros tr'. now rewrite !He.
Qed.

End FacadeSessions.

(** X16. In a sequence of facade calls on one client, the calls with
    well-formed arguments send exactly one request each and the others
    none, whatever the transport answers: the wire grows by the number of
    well-formed calls, one log line is written per request, and the client
    object itself (base URL, timeout, open or closed) is never changed by
    a request method. *)
Theorem facade_session_requests (tr : Transport) (cs : list Call)
    (w : ServiceClient.world) :
  ServiceClient.self (run_all tr w cs) = ServiceClient.self w /\
  length (ServiceClient.wire (run_all tr w cs))
  = length (ServiceClient.wire w) + length (List.filter well_formed cs) /\
  length (ServiceClient.log (run_all tr w cs))
  = length (ServiceClient.log w) + length (List.filter well_formed cs).
Proof.
  unfold run_all. revert w. induction cs as [| c cs IH]; intros w; simpl.
  - repeat split; lia.
  - destruct (IH (snd (run c tr w))) as (Hs & Hw & Hl).
    destruct (run_state c tr w) as (added & Hrun & Hlen & _).
    rewrite Hs, Hw, Hl, Hrun. simpl. rewrite !length_app, !length_map, Hlen.
    destruct (well_formed c); simpl; repeat split; lia.
Qed.

(** X17. The requests a sequence of facade calls sends do not depend on
    what the transport answers: with two transports that behave in any two
    ways, the same calls leave the same wire, the same log and the same
    client. No call is retried, skipped or altered because an earlier one
    failed. *)
Theorem facade_session_transport_independent (tr tr' : Transport)
    (cs : list Call) (w : ServiceClient.world) :
  run_all tr w cs = run_all tr' w cs.
Proof.
  unfold run_all. revert w. induction cs as [| c cs IH]; intros w; simpl.
  - reflexivity.
  - destruct (run_state c tr w) as (_ & _ & _ & Hindep).
    now rewrite (Hindep tr'), IH.
Qed.

(** ** What the requests carry *)

Section Kwargs.

(** From the shape of a call to the request itself. *)
Lemma sends_request_inv (c : Call) (r r' : Request) :
  sends_request c r ->
  run c always_ok (ServiceClient.fresh (client_at ""))
  = (answer always_ok (ServiceClient.fresh (client_at "")) r',
     issued (ServiceClient.fresh (client_at "")) r') ->
  r = r'.
Proof.
  intros Hc Hr. rewrite Hc in Hr. now apply forwarded_inv in Hr.
Qed.

Lemma plain_kwargs_intro (m : Method) (endpoint : string)
    (kwargs : gmap string pyval) :
  (forall k : string,
      k <> "json" -> k <> "params" -> k <> "auth" -> kwargs !! k = None) ->
  (m = GET -> kwargs !! "json" = None /\ kwargs !! "auth" = None) ->
  (kwargs !! "json" = None \/ kwargs !! "auth" = None) ->
  plain_kwargs {| req_method := m;
                  req_path := ServiceClient._normalise endpoint;
                  req_kwargs := kwargs |}.
Proof.
  intros Hd Hg Hj. repeat split; try assumption; try now apply Hg.
  apply _normalise_leading.
Qed.

End Kwargs.

Ltac kwargs_done :=
  apply plain_kwargs_intro;
  [ intros k Hjson Hparams Hauth;
    rewrite ?lookup_insert_ne, ?lookup_singleton_ne, ?lookup_empty by congruence;
    reflexivity
  | first [intros _; split; reflexivity | intros HH; discriminate HH]
  | first [left; reflexivity | right; reflexivity] ].

(** X18. Every request a facade method sends is plain: its keyword
    arguments are among json, params and auth (never headers, cookies or a
    timeout of its own); a GET carries neither a body nor credentials; a
    body and credentials never go together; and the path starts with a
    slash. *)
Theorem request_kwargs_plain (c : Call) (r : Request) :
  sends_request c r -> plain_kwargs r.
Proof.
  intros Hc.
  pose proof (Hc always_ok (ServiceClient.fresh (client_at ""))) as Hrun.
  clear Hc. revert Hrun. destruct c; unfold_methods; intros Hrun;
    try (unfold bind, lift in Hrun;
         destruct (_normalise_token_payload token);
         [destruct (rejected_not_forwarded _ _ _ _ Hrun) |]);
    try (first [rewrite get_run in Hrun | rewrite post_run in Hrun
               | rewrite put_run in Hrun | rewrite delete_run in Hrun];
         cbv zeta in Hrun; apply forwarded_inv in Hrun; subst r; kwargs_done).
  destruct (login_user_outcome credentials)
    as [[_ [a Ha]] | [_ (e & _ & Hr)]].
  - pose proof (eq_trans (eq_sym (Ha _ _)) Hrun) as Heq.
    apply forwarded_inv in Heq. subst r.
    apply (plain_kwargs_intro POST "/login" {[ "auth" := a ]}).
    + intros k Hjson Hparams Hauth. now rewrite lookup_singleton_ne.
    + intros HH. discriminate HH.
    + left. reflexivity.
  - destruct (rejected_not_forwarded _ _ _ _
                (eq_trans (eq_sym (Hr _ _)) Hrun)).
Qed.

Lemma request_kwargs_plain_witness :
  plain_kwargs
    {| req_method := DELETE;
       req_path := "/parking_slots/42";
       req_kwargs :=
         {[ "json" :=
              PyDict {[ "authorization" :=
                          PyDict {[ "token" := PyStr "abc" ]} ]} ]} |}.
Proof.
  apply (request_kwargs_plain (Parking_delete_parking_slot "42" (PyStr "abc"))).
  intros tr w. reflexivity.
Defined.

(** ** After close *)

(** X19. The wrapper does not look at whether it was closed: after close,
    a call with well-formed arguments still hands its request, the same as
    before, to the now closed transport client, and returns whatever that
    answers; nothing was sent by close itself. *)
Theorem calls_after_close (c : Call) (tr : Transport) (w : ServiceClient.world) :
  well_formed c = true ->
  exists r,
    sends_request c r /\
    ServiceClient.wire (snd (ServiceClient.close tr w)) = ServiceClient.wire w /\
    run c tr (snd (ServiceClient.close tr w))
    = (tr (ServiceClient._client (closed (ServiceClient.self w))) r,
       issued (snd (ServiceClient.close tr w)) r) /\
    is_closed (ServiceClient._client (closed (ServiceClient.self w))) = true.
Proof.
  intros Hc. destruct (run_shape c) as [[_ [r Hr]] | [Hn _]]; [| congruence].
  exists r. split; [exact Hr |]. split; [reflexivity |].
  split; [| reflexivity]. now rewrite Hr.
Qed.

Lemma calls_after_close_witness :
  exists r,
    sends_request Telemetry_health_check r /\
    ServiceClient.wire
      (snd (ServiceClient.close unreachable
              (ServiceClient.fresh (client_at "http://x"))))
    = [] /\
    run Telemetry_health_check unreachable
      (snd (ServiceClient.close unreachable
              (ServiceClient.fresh (client_at "http://x"))))
    = (unreachable
         (ServiceClient._client (closed (client_at "http://x"))) r,
       issued
         (snd (ServiceClient.close unreachable
                 (ServiceClient.fresh (client_at "http://x")))) r) /\
    is_closed (ServiceClient._client (closed (client_at "http://x"))) = true.
Proof.
  apply (calls_after_close Telemetry_health_check unreachable
           (ServiceClient.fresh (client_at "http://x"))).
  reflexivity.
Defined.

(** ** Endpoints *)

Section Endpoints.

Lemma sends_request_endpoint (c : Call) (r : Request) :
  sends_request c r -> (req_method r, req_path r) = endpoint_of c.
Proof.
  intros Hc.
  pose proof (Hc always_ok (ServiceClient.fresh (client_at ""))) as Hrun.
  clear Hc. revert Hrun. destruct c; unfold_methods; intros Hrun;
    try (unfold bind, lift in Hrun;
         destruct (_normalise_token_payload token);
         [destruct (rejected_not_forwarded _ _ _ _ Hrun) |]);
    try (first [rewrite get_run in Hrun | rewrite post_run in Hrun
               | rewrite put_run in Hrun | rewrite delete_run in Hrun];
         cbv zeta in Hrun; apply forwarded_inv in Hrun; subst r;
         cbn [req_method req_path endpoint_of];
         try rewrite (_normalise_fixed _ (startswith_slash_cons _));
         reflexivity).
  destruct (login_user_outcome credentials)
    as [[_ [a Ha]] | [_ (e & _ & Hr)]].
  - pose proof (eq_trans (eq_sym (Ha _ _)) Hrun) as Heq.
    apply forwarded_inv in Heq. subst r. reflexivity.
  - destruct (rejected_not_forwarded _ _ _ _
                (eq_trans (eq_sym (Hr _ _)) Hrun)).
Qed.

Lemma snoc_inj (p q : string) (c d : Ascii.ascii) :
  p +:+ String c "" = q +:+ String d "" -> p = q /\ c = d.
Proof.
  revert q. induction p as [| a p IH]; intros [| b q];
    rewrite ?app_empty_l, ?app_cons.
  - intros [= ->]. now split.
  - intros [= _ H]. destruct q; discriminate H.
  - intros [= _ H]. destruct p; discriminate H.
  - intros [= -> H]. apply IH in H as [-> ->]. now split.
Qed.

End Endpoints.

Section Distinct.

(** Two paths whose last characters differ are different. *)
Lemma paths_end_alike (p q i j s t : string) (c d : Ascii.ascii) :
  p +:+ i +:+ s +:+ String c "" = q +:+ j +:+ t +:+ String d "" -> c = d.
Proof.
  rewrite <- !app_assoc_str. intros H. now apply snoc_inj in H.
Qed.

Lemma endpoint_of_distinct (c c' : Call) :
  service_of c = service_of c' ->
  endpoint_of c = endpoint_of c' ->
  method_name c = method_name c'.
Proof.
  intros Hs He.
  destruct c, c'; try reflexivity; try discriminate Hs; clear Hs;
    cbn [endpoint_of] in He;
    pose proof (f_equal fst He) as Hm; pose proof (f_equal snd He) as Hp;
    cbn [fst snd] in Hm, Hp; clear He; try discriminate Hm; clear Hm;
    try (rewrite ?app_cons, ?app_empty_l in Hp; discriminate Hp).
  - apply (paths_end_alike "" "/" "" device_id "/healt" "/lates") in Hp.
    discriminate Hp.
  - apply (paths_end_alike "/" "" device_id "" "/lates" "/healt") in Hp.
    discriminate Hp.
  - apply (paths_end_alike "/parking_slots/" "/parking_slots/"
             slot_id slot_id0 "/assig" "/releas") in Hp.
    discriminate Hp.
  - apply (paths_end_alike "/parking_slots/" "/parking_slots/"
             slot_id slot_id0 "/releas" "/assig") in Hp.
    discriminate Hp.
Qed.

End Distinct.

(** X20. Within a facade the remote endpoint identifies the method: two
    calls on the same facade whose requests have the same verb and the
    same path are calls of the same method, whatever identifiers were
    interpolated into the paths. *)
Theorem endpoint_identifies_method (c c' : Call) (r r' : Request) :
  sends_request c r -> sends_request c' r' ->
  service_of c = service_of c' ->
  req_method r = req_method r' ->
  req_path r = req_path r' ->
  method_name c = method_name c'.
Proof.
  intros Hc Hc' Hs Hm Hp.
  apply sends_request_endpoint in Hc. apply sends_request_endpoint in Hc'.
  apply endpoint_of_distinct; [exact Hs |].
  now rewrite <- Hc, <- Hc', Hm, Hp.
Qed.

Lemma endpoint_identifies_method_witness :
  method_name (UserAuth_get_user (inl 7%Z))
  = method_name (UserAuth_get_user (inr "7")).
Proof.
  apply (endpoint_identifies_method
           (UserAuth_get_user (inl 7%Z)) (UserAuth_get_user (inr "7"))
           {| req_method := GET; req_path := "/user/7"; req_kwargs := ∅ |}
           {| req_method := GET; req_path := "/user/7"; req_kwargs := ∅ |});
    try reflexivity; intros tr w; reflexivity.
Defined.
